(** * Background script of the account switcher: rule compilation,
      reconciliation, cookie watcher, message boundary and fallback
      interceptor of [src/background/index.ts].

    The script is a set of asynchronous functions over external
    collaborators (account, rule and cookie services, the badge, the
    platform's filtering engine, the network, the regular-expression
    engine and the timers of the event loop).  The collaborators' code is
    not part of the script: they are taken as parameters, each one a
    transition on an abstract collaborator state that either returns or
    throws.  The script's functions are written in a small monad that
    threads that state, propagates a thrown error and records every
    collaborator call in order.

    Each asynchronous function is modelled as running to completion once
    called (single event loop, no interleaving at its suspension
    points). *)

From Stdlib Require Import String Ascii List Bool ZArith NArith PArith Lia Sorted.
Import ListNotations.
Open Scope string_scope.
Open Scope list_scope.

Set Implicit Arguments.

(* ------------------------------------------------------------------ *)
(** ** Data model *)

(** A stored cookie; the script reads only its name and value. *)
Record Cookie := { cookie_name : string; cookie_value : string }.

Record Account := { account_name : string; cookies : list Cookie }.

Record AutoSwitchRule := { account : string; urlPattern : string }.

Inductive ResourceType :=
| main_frame | sub_frame | csp_report | websocket | xmlhttprequest.

(** [{ header, operation, value }] of a [modifyHeaders] action. *)
Record ModifyHeaderInfo :=
  { mh_header : string; mh_operation : string; mh_value : string }.

Record RuleAction :=
  { action_type : string; requestHeaders : list ModifyHeaderInfo }.

Record RuleCondition :=
  { regexFilter : string; resourceTypes : list ResourceType }.

(** A rule of the platform's filtering engine. *)
Record Rule :=
  { id : Z; priority : Z; action : RuleAction; condition : RuleCondition }.

Record UpdateRuleOptions :=
  { removeRuleIds : list Z; addRules : list Rule }.

(** What [fetch] resolves to, as far as the script looks at it. *)
Record FetchResponse := { status : Z; url : string }.

(** A request header: [value] is optional on the platform's type. *)
Record HttpHeader := { header_name : string; header_value : option string }.

(** The details handed to the [onBeforeSendHeaders] hook. *)
Record RequestDetails :=
  { details_url : string; details_requestHeaders : option (list HttpHeader) }.

(** [changeInfo] of [cookies.onChanged]. *)
Record ChangeInfo := { changed_cookie : Cookie; removed : bool }.

(** A command message: the [type] tag and the [account] field the
    switch and remove commands carry. *)
Record RequestMessage := { msg_type : string; msg_account : string }.

Definition RESOURCE_TYPES : list ResourceType :=
  [main_frame; sub_frame; csp_report; websocket; xmlhttprequest].

(* ------------------------------------------------------------------ *)
(** ** Strings as the script uses them *)

(** [Array.prototype.join] on an array of strings. *)
Definition join (sep : string) (l : list string) : string := String.concat sep l.

(** [String.prototype.slice(0, n)]. *)
Definition slice0 (n : nat) (s : string) : string := substring 0 n s.

(** [toLowerCase] on one code unit of an ASCII name. *)
Definition lower_ascii (c : ascii) : ascii :=
  let n := nat_of_ascii c in
  if andb (Nat.leb 65 n) (Nat.leb n 90) then ascii_of_nat (n + 32) else c.

(** [String.prototype.toLowerCase]; header names are ASCII tokens. *)
Fixpoint toLowerCase (s : string) : string :=
  match s with
  | EmptyString => EmptyString
  | String c r => String (lower_ascii c) (toLowerCase r)
  end.

(** Narrowing of a [string | null] by a truthiness test: [null] and
    the empty string are falsy. *)
Definition truthy (v : option string) : option string :=
  match v with
  | None => None
  | Some s => if String.eqb s "" then None else Some s
  end.

(* ------------------------------------------------------------------ *)
(** ** Calls to the collaborators, as recorded *)

Inductive Call :=
| CookieGet (name : string)
| CookieGetAll
| CookieClear
| AccountUpsert (name : string) (cs : list Cookie)
| AccountGetAll
| AccountGetAllNames
| AccountFind (name : string)
| AccountRemove (name : string)
| AccountSwitchTo (name : string)
| AccountSaveAvatar (name : string) (avatarUrl : string)
| RuleGetAll
| SetBadgeText (text : string)
| GetDynamicRules
| UpdateDynamicRules (options : UpdateRuleOptions)
| Fetch (target : string)
| ConsoleInfo (what : string)
| ConsoleWarn (what : string).

Section Background.

(** State of the collaborators, values they return that the script only
    passes on, and values that can be thrown. *)
Variables (Ext Value Error : Type).

Inductive Outcome (A : Type) :=
| Ok (a : A)
| Throw (e : Error).
Arguments Ok {A} a.
Arguments Throw {A} e.

(** A collaborator operation: a transition on the collaborator state
    that returns or throws. *)
Definition Op (A : Type) : Type := Ext -> Outcome A * Ext.

(** The external collaborators of the script. *)
Record Collaborators := {
  co_cookie_get : string -> Op (option Cookie);
  co_cookie_getAll : Op (list Cookie);
  co_cookie_clear : Op Value;
  co_account_upsert : string -> list Cookie -> Op unit;
  co_account_getAll : Op (list Account);
  co_account_getAllNames : Op (list string);
  co_account_find : string -> Op (option Account);
  co_account_remove : string -> Op unit;
  co_account_switchTo : string -> Op Value;
  co_account_saveAvatar : string -> string -> Op unit;
  co_rule_getAll : Op (list AutoSwitchRule);
  co_setBadgeText : string -> Op unit;
  (** whether [browser.declarativeNetRequest] is defined *)
  co_declarativeNetRequest : bool;
  co_getDynamicRules : Op (list Rule);
  co_updateDynamicRules : UpdateRuleOptions -> Op unit;
  co_fetch : string -> Op FetchResponse;
  (** [new RegExp(source)]: a syntax error, or the compiled [test] *)
  co_RegExp : string -> Error + (string -> bool)
}.

Variable C : Collaborators.

(* ------------------------------------------------------------------ *)
(** ** The monad of the script's asynchronous functions *)

(** Result of running a computation: its outcome, the collaborator
    state it leaves and the calls it made, oldest first. *)
Record Run (A : Type) := { outcome : Outcome A; after : Ext; calls : list Call }.

Definition M (A : Type) : Type := Ext -> Run A.

Definition ret {A} (a : A) : M A :=
  fun e => {| outcome := Ok a; after := e; calls := [] |}.

Definition throw {A} (x : Error) : M A :=
  fun e => {| outcome := Throw x; after := e; calls := [] |}.

Definition bind {A B} (m : M A) (f : A -> M B) : M B :=
  fun e =>
    let r := m e in
    match outcome r with
    | Ok a =>
        let r' := f a (after r) in
        {| outcome := outcome r'; after := after r'; calls := calls r ++ calls r' |}
    | Throw x => {| outcome := Throw x; after := after r; calls := calls r |}
    end.

(** [try { m } catch (e) { h e }] *)
Definition try_catch {A} (m : M A) (h : Error -> M A) : M A :=
  fun e =>
    let r := m e in
    match outcome r with
    | Ok a => r
    | Throw x =>
        let r' := h x (after r) in
        {| outcome := outcome r'; after := after r'; calls := calls r ++ calls r' |}
    end.

(** An awaited call to a collaborator. *)
Definition call {A} (c : Call) (op : Op A) : M A :=
  fun e => let (o, e') := op e in {| outcome := o; after := e'; calls := [c] |}.

(** A call whose promise is dropped: a failure is not seen by the
    caller. *)
Definition call_dropped {A} (c : Call) (op : Op A) : M unit :=
  fun e => let (_, e') := op e in {| outcome := Ok tt; after := e'; calls := [c] |}.

(** [console.info] and [console.warn] only leave a record. *)
Definition console_info (what : string) : M unit :=
  fun e => {| outcome := Ok tt; after := e; calls := [ConsoleInfo what] |}.

Definition console_warn (what : string) : M unit :=
  fun e => {| outcome := Ok tt; after := e; calls := [ConsoleWarn what] |}.

Notation "x <- m ;; k" := (bind m (fun x => k))
  (at level 61, m at next level, right associativity).
Notation "m ;;; k" := (bind m (fun _ => k))
  (at level 61, right associativity).

(** The services, as the script calls them. *)
Definition cookie_get (name : string) := call (CookieGet name) (co_cookie_get C name).
Definition cookie_getAll := call CookieGetAll (co_cookie_getAll C).
Definition cookie_clear := call CookieClear (co_cookie_clear C).
Definition accountService_upsert (a : string) (cs : list Cookie) :=
  call (AccountUpsert a cs) (co_account_upsert C a cs).
Definition accountService_getAll := call AccountGetAll (co_account_getAll C).
Definition accountService_getAllNames := call AccountGetAllNames (co_account_getAllNames C).
Definition accountService_find (a : string) := call (AccountFind a) (co_account_find C a).
Definition accountService_remove (a : string) := call (AccountRemove a) (co_account_remove C a).
Definition accountService_switchTo (a : string) :=
  call (AccountSwitchTo a) (co_account_switchTo C a).
Definition accountService_saveAvatar_dropped (a u : string) :=
  call_dropped (AccountSaveAvatar a u) (co_account_saveAvatar C a u).
Definition ruleService_getAll := call RuleGetAll (co_rule_getAll C).
Definition setBadgeText (text : string) := call (SetBadgeText text) (co_setBadgeText C text).
Definition getDynamicRules := call GetDynamicRules (co_getDynamicRules C).
Definition updateDynamicRules (o : UpdateRuleOptions) :=
  call (UpdateDynamicRules o) (co_updateDynamicRules C o).
Definition fetch (target : string) := call (Fetch target) (co_fetch C target).

(** [new RegExp(source).test(subject)] *)
Definition RegExp_test (source subject : string) : M bool :=
  match co_RegExp C source with
  | inl x => throw x
  | inr test => ret (test subject)
  end.

(* ------------------------------------------------------------------ *)
(** ** Rule compiler *)

(** [account?.cookies || []] *)
Definition cookies_or_empty (a : option Account) : list Cookie :=
  match a with
  | Some acc => cookies acc
  | None => []
  end.

Definition buildCookieValue (accountName : string) : M (option string) :=
  account <- accountService_find accountName ;;
  let cookies := cookies_or_empty account in
  if Nat.eqb (length cookies) 0 then ret None
  else
    ret (Some (join "; "
      (map (fun cookie => (cookie_name cookie ++ "=" ++ cookie_value cookie)%string) cookies
         ++ [("__account__=" ++ accountName)%string]))).

(** [Array.prototype.entries]: each element with its index. *)
Definition entries {A} (l : list A) : list (nat * A) := combine (seq 0 (length l)) l.

(** The body of the [for ... of] loop of [buildAddRules], over the
    entries left and the [requestRules] pushed so far. *)
Fixpoint buildAddRules_loop (es : list (nat * AutoSwitchRule)) (requestRules : list Rule)
  : M (list Rule) :=
  match es with
  | [] => ret requestRules
  | (index, rule) :: rest =>
      cookieValue <- buildCookieValue (account rule) ;;
      match truthy cookieValue with
      | None => buildAddRules_loop rest requestRules
      | Some value =>
          buildAddRules_loop rest
            (requestRules ++
              [ {| id := Z.of_nat index + 1;
                   priority := 1;
                   action :=
                     {| action_type := "modifyHeaders";
                        requestHeaders :=
                          [ {| mh_header := "Cookie";
                               mh_operation := "set";
                               mh_value := value |} ] |};
                   condition :=
                     {| regexFilter :=
                          (urlPattern rule ++ "|__account__=" ++ account rule)%string;
                        resourceTypes := RESOURCE_TYPES |} |} ])
      end
  end.

Definition buildAddRules : M (list Rule) :=
  autoSwitchRules <- ruleService_getAll ;;
  buildAddRules_loop (entries autoSwitchRules) [].

(* ------------------------------------------------------------------ *)
(** ** Rule synchronizer and account sync *)

Definition updateDynamicRequestRules : M unit :=
  if negb (co_declarativeNetRequest C) then ret tt
  else
    existingRules <- getDynamicRules ;;
    let removeRuleIds := map id existingRules in
    addRules <- buildAddRules ;;
    updateDynamicRules {| removeRuleIds := removeRuleIds; addRules := addRules |} ;;;
    rules <- getDynamicRules ;;
    console_info "Current dynamic rules:".

Definition syncAccounts : M unit :=
  usernameCookie <- cookie_get "dotcom_user" ;;
  sessionCookie <- cookie_get "user_session" ;;
  match usernameCookie, sessionCookie with
  | Some usernameCookie, Some _ =>
      let account := cookie_value usernameCookie in
      if String.eqb account "" then ret tt
      else
        all <- cookie_getAll ;;
        accountService_upsert account all ;;;
        accounts <- accountService_getAll ;;
        console_info "synced accounts" ;;;
        updateDynamicRequestRules ;;;
        res <- fetch ("https://github.com/" ++ account ++ ".png?size=100")%string ;;
        (if Z.eqb (status res) 200
         then accountService_saveAvatar_dropped account (url res)
         else ret tt) ;;;
        setBadgeText (slice0 2 account)
  | _, _ => ret tt
  end.

Definition removeAccount (accountName : string) : M unit :=
  accountService_remove accountName ;;;
  updateDynamicRequestRules.

(* ------------------------------------------------------------------ *)
(** ** Command messages *)

(** What a handler resolves to: [undefined], or what a service call
    returned. *)
Inductive Data :=
| D_undefined
| D_names (names : list string)
| D_rules (rules : list AutoSwitchRule)
| D_value (v : Value).

(** [{ success: true, data }] or [{ success: false, error }]. *)
Inductive Response :=
| success_true (data : Data)
| success_false (error : Error).

Definition handleMessage (message : RequestMessage) : M Data :=
  let type := msg_type message in
  if String.eqb type "getAccounts" then
    names <- accountService_getAllNames ;; ret (D_names names)
  else if String.eqb type "switchAccount" then
    v <- accountService_switchTo (msg_account message) ;; ret (D_value v)
  else if String.eqb type "removeAccount" then
    removeAccount (msg_account message) ;;; ret D_undefined
  else if String.eqb type "clearCookies" then
    v <- cookie_clear ;; ret (D_value v)
  else if String.eqb type "getAutoSwitchRules" then
    rules <- ruleService_getAll ;; ret (D_rules rules)
  else ret D_undefined.

(** The listener [listenMessage] registers. *)
Definition listenMessage_listener (request : RequestMessage) : M Response :=
  try_catch
    (data <- handleMessage request ;; ret (success_true data))
    (fun error => ret (success_false error)).

(* ------------------------------------------------------------------ *)
(** ** Fallback interceptor *)

(** The inner loop over the request headers: a header named [Cookie],
    in any case, gets the value. *)
Definition set_cookie_headers (cookieValue : string) (hs : list HttpHeader)
  : list HttpHeader :=
  map (fun header =>
         if String.eqb (toLowerCase (header_name header)) "cookie"
         then {| header_name := header_name header; header_value := Some cookieValue |}
         else header) hs.

(** The loop over the rules of the listener [interceptRequests]
    registers; it returns the request headers of the listener's result. *)
Fixpoint interceptRequests_loop (target : string) (hs : list HttpHeader)
    (autoSwitchRules : list AutoSwitchRule) : M (list HttpHeader) :=
  match autoSwitchRules with
  | [] => ret hs
  | rule :: rest =>
      let urlPattern := (urlPattern rule ++ "|__account__=" ++ account rule)%string in
      matched <- RegExp_test urlPattern target ;;
      if matched then
        cookieValue <- buildCookieValue (account rule) ;;
        let hs' :=
          match truthy cookieValue with
          | Some value => set_cookie_headers value hs
          | None => hs
          end in
        console_info "interceptRequests: found an auto switch rule for url" ;;;
        ret hs'
      else interceptRequests_loop target hs rest
  end.

Definition interceptRequests_listener (details : RequestDetails)
  : M (option (list HttpHeader)) :=
  match details_requestHeaders details with
  | None => ret None
  | Some hs =>
      autoSwitchRules <- ruleService_getAll ;;
      hs' <- interceptRequests_loop (details_url details) hs autoSwitchRules ;;
      ret (Some hs')
  end.

(* ------------------------------------------------------------------ *)
(** ** Cookie watcher and the timers of the event loop *)

(** A pending timer.  The script sets timers in one place only, so every
    timer carries the debounce callback of [scheduleSync]. *)
Record Timer := { timer_id : positive; timer_due : N }.

(** The event loop as the watcher sees it: the collaborator state, the
    calls made so far, the closure variable [syncTimer], the pending
    timers, the clock in milliseconds and the next timer handle (handles
    are positive integers, hence truthy). *)
Record Loop := {
  ext : Ext;
  log : list Call;
  syncTimer : option positive;
  timers : list Timer;
  now : N;
  nextTimer : positive
}.

(** Running an asynchronous function of the script to completion. *)
Definition exec {A} (m : M A) (w : Loop) : Outcome A * Loop :=
  let r := m (ext w) in
  (outcome r,
   {| ext := after r; log := log w ++ calls r; syncTimer := syncTimer w;
      timers := timers w; now := now w; nextTimer := nextTimer w |}).

Definition clearTimeout (t : positive) (w : Loop) : Loop :=
  {| ext := ext w; log := log w; syncTimer := syncTimer w;
     timers := filter (fun x => negb (Pos.eqb (timer_id x) t)) (timers w);
     now := now w; nextTimer := nextTimer w |}.

Definition setTimeout (delay : N) (w : Loop) : positive * Loop :=
  (nextTimer w,
   {| ext := ext w; log := log w; syncTimer := syncTimer w;
      timers := timers w ++ [ {| timer_id := nextTimer w; timer_due := now w + delay |} ];
      now := now w; nextTimer := Pos.succ (nextTimer w) |}).

Definition set_syncTimer (v : option positive) (w : Loop) : Loop :=
  {| ext := ext w; log := log w; syncTimer := v;
     timers := timers w; now := now w; nextTimer := nextTimer w |}.

Definition AUTH_COOKIES : list string :=
  ["dotcom_user"; "user_session"; "_gh_sso"; "logged_in"].

(** [Set.prototype.has] *)
Definition has (s : list string) (x : string) : bool := existsb (String.eqb x) s.

(** [syncAccounts().catch(...)] of the timer callback. *)
Definition debounced_sync : M unit :=
  try_catch syncAccounts
    (fun e => console_warn "Failed to sync accounts after auth cookie change").

(** The callback [scheduleSync] hands to [setTimeout]. *)
Definition syncTimer_callback (w : Loop) : Loop :=
  let w1 := snd (exec debounced_sync w) in
  set_syncTimer None w1.

Definition scheduleSync (w : Loop) : Loop :=
  let w1 :=
    match syncTimer w with
    | Some t => clearTimeout t w
    | None => w
    end in
  let (t, w2) := setTimeout 300 w1 in
  set_syncTimer (Some t) w2.

(** The listener [watchCookies] registers on [cookies.onChanged]. *)
Definition watchCookies_listener (changeInfo : ChangeInfo) (w : Loop) : Loop :=
  let changedCookie := changed_cookie changeInfo in
  if negb (has AUTH_COOKIES (cookie_name changedCookie)) then w
  else if removed changeInfo then
    if String.eqb (cookie_name changedCookie) "dotcom_user" then
      snd (exec (console_info "dotcom_user cookie removed" ;;; setBadgeText "...") w)
    else w
  else
    let w1 :=
      if String.eqb (cookie_name changedCookie) "dotcom_user"
      then snd (exec (console_info "New dotcom_user cookie") w)
      else snd (exec (console_info "Auth-related cookie changed") w) in
    scheduleSync w1.

(** Time passing: the timers due by the new time leave the table and
    their callbacks run, oldest first. *)
Definition is_due (t : N) (x : Timer) : bool := N.leb (timer_due x) t.

Definition elapse (dt : N) (w : Loop) : Loop :=
  let t := (now w + dt)%N in
  let w1 :=
    {| ext := ext w; log := log w; syncTimer := syncTimer w;
       timers := filter (fun x => negb (is_due t x)) (timers w);
       now := t; nextTimer := nextTimer w |} in
  fold_left (fun w' _ => syncTimer_callback w') (filter (is_due t) (timers w)) w1.

(** What can happen to the loop: a cookie-change notification, time
    passing, another listener of the script running, or the outside
    changing the collaborator state (a site setting a cookie, the popup
    editing the stores). *)
Inductive Event :=
| CookieChanged (changeInfo : ChangeInfo)
| Elapse (dt : N)
| Listener (m : M unit)
| Outside (f : Ext -> Ext).

Definition set_ext (e : Ext) (w : Loop) : Loop :=
  {| ext := e; log := log w; syncTimer := syncTimer w;
     timers := timers w; now := now w; nextTimer := nextTimer w |}.

Definition step (w : Loop) (ev : Event) : Loop :=
  match ev with
  | CookieChanged changeInfo => watchCookies_listener changeInfo w
  | Elapse dt => elapse dt w
  | Listener m => snd (exec m w)
  | Outside f => set_ext (f (ext w)) w
  end.

Definition steps (w : Loop) (evs : list Event) : Loop := fold_left step evs w.

(** The loop when [watchCookies] has just run: no timer set. *)
Definition startup (e : Ext) : Loop :=
  {| ext := e; log := []; syncTimer := None; timers := []; now := 0; nextTimer := 1 |}.

(* ------------------------------------------------------------------ *)
(** ** Notions the statements use *)

(** The rule store holds [rules] and the account store answers as
    [accounts] in collaborator state [e], and reading them leaves the
    state as it is. *)
Definition stores_hold (rules : list AutoSwitchRule) (accounts : string -> option Account)
    (e : Ext) : Prop :=
  co_rule_getAll C e = (Ok rules, e) /\
  forall n, co_account_find C n e = (Ok (accounts n), e).

(** The filtering engine leaves the rule and account stores alone. *)
Definition engine_keeps_stores (rules : list AutoSwitchRule)
    (accounts : string -> option Account) : Prop :=
  forall e, stores_hold rules accounts e ->
    stores_hold rules accounts (snd (co_getDynamicRules C e)) /\
    forall o, stores_hold rules accounts (snd (co_updateDynamicRules C o e)).

(** The cookie header value in the words of the specification: every
    stored cookie as [name=value] followed by the separator, then the
    marker pair of the account. *)
Fixpoint cookie_header_spec (cs : list Cookie) (accountName : string) : string :=
  match cs with
  | [] => ("__account__=" ++ accountName)%string
  | c :: rest =>
      (cookie_name c ++ "=" ++ cookie_value c ++ "; "
         ++ cookie_header_spec rest accountName)%string
  end.

(** What the specification asks of the filter rule compiled from the
    rule at [index] with cookie header [value]. *)
Definition compiled_from (index : nat) (rule : AutoSwitchRule) (value : string)
    (cr : Rule) : Prop :=
  id cr = (Z.of_nat index + 1)%Z /\
  priority cr = 1%Z /\
  action cr =
    {| action_type := "modifyHeaders";
       requestHeaders :=
         [ {| mh_header := "Cookie"; mh_operation := "set"; mh_value := value |} ] |} /\
  regexFilter (condition cr) = (urlPattern rule ++ "|__account__=" ++ account rule)%string /\
  resourceTypes (condition cr) =
    [main_frame; sub_frame; csp_report; websocket; xmlhttprequest].

(** The rules expected of a list of entries, one entry after the
    other. *)
Definition expected_rules (accounts : string -> option Account)
    (es : list (nat * AutoSwitchRule)) : list Rule :=
  flat_map
    (fun '(index, rule) =>
       match cookies_or_empty (accounts (account rule)) with
       | [] => []
       | cs =>
           [ {| id := Z.of_nat index + 1;
                priority := 1;
                action :=
                  {| action_type := "modifyHeaders";
                     requestHeaders :=
                       [ {| mh_header := "Cookie"; mh_operation := "set";
                            mh_value := cookie_header_spec cs (account rule) |} ] |};
                condition :=
                  {| regexFilter :=
                       (urlPattern rule ++ "|__account__=" ++ account rule)%string;
                     resourceTypes := RESOURCE_TYPES |} |} ]
       end) es.

(** The pattern the interceptor tests for a rule. *)
Definition combined_pattern (rule : AutoSwitchRule) : string :=
  (urlPattern rule ++ "|__account__=" ++ account rule)%string.

(** The rule's combined pattern is a valid expression that matches, or
    does not match, the target. *)
Definition matches (rule : AutoSwitchRule) (target : string) (b : bool) : Prop :=
  exists test, co_RegExp C (combined_pattern rule) = inr test /\ test target = b.

Definition is_update (c : Call) : bool :=
  match c with UpdateDynamicRules _ => true | _ => false end.

Definition is_badge (c : Call) : bool :=
  match c with SetBadgeText _ => true | _ => false end.

(** [syncAccounts] starts by reading the [dotcom_user] cookie and
    nothing else in the script reads it: its invocations are counted by
    these reads. *)
Definition is_sync_start (c : Call) : bool :=
  match c with CookieGet n => String.eqb n "dotcom_user" | _ => false end.

Definition sync_invocations (l : list Call) : nat := length (filter is_sync_start l).

Definition badge_updates (l : list Call) : nat := length (filter is_badge l).

(** The command kinds of the protocol. *)
Definition known_kind (type : string) : Prop :=
  In type ["getAccounts"; "switchAccount"; "removeAccount"; "clearCookies";
           "getAutoSwitchRules"].

(** The calls the rule compiler makes. *)
Definition is_compiler_call (c : Call) : bool :=
  match c with RuleGetAll | AccountFind _ => true | _ => false end.

(** The watcher's invariant: the pending timers are exactly the one
    [syncTimer] refers to, if any. *)
Definition one_pending (w : Loop) : Prop :=
  match syncTimer w with
  | Some t => exists due, timers w = [ {| timer_id := t; timer_due := due |} ]
  | None => timers w = []
  end.

(** A change the watcher re-syncs on: an allow-listed cookie set or
    updated. *)
Definition qualifying (changeInfo : ChangeInfo) : Prop :=
  has AUTH_COOKIES (cookie_name (changed_cookie changeInfo)) = true /\
  removed changeInfo = false.

(** A burst after a first notification: each further one comes [gap]
    milliseconds after the one before, the cookie store having changed
    by [f]. *)
Definition burst_events (b : list (N * (Ext -> Ext) * ChangeInfo)) : list Event :=
  flat_map (fun '(gap, f, changeInfo) =>
              [Elapse gap; Outside f; CookieChanged changeInfo]) b.

(* ------------------------------------------------------------------ *)
(** ** Navigation watcher and startup *)

(** The loop over the rules in the [then] callback of the listener
    [watchAutoSwitchRequests] registers: what the callback returns,
    [undefined] when no rule matches. *)
Fixpoint watchAutoSwitchRequests_loop (target : string)
    (autoSwitchRules : list AutoSwitchRule) : M (option Value) :=
  match autoSwitchRules with
  | [] => ret None
  | rule :: rest =>
      matched <- RegExp_test (urlPattern rule) target ;;
      if matched then
        console_info "onBeforeRequest: found an auto switch rule for url" ;;;
        v <- accountService_switchTo (account rule) ;;
        ret (Some v)
      else watchAutoSwitchRequests_loop target rest
  end.

(** The promise [ruleService.getAll().then(...)]. *)
Definition watchAutoSwitchRequests_promise (target : string) : M (option Value) :=
  autoSwitchRules <- ruleService_getAll ;;
  watchAutoSwitchRequests_loop target autoSwitchRules.

(** The listener [watchAutoSwitchRequests] registers: it starts the
    promise and returns nothing; a rejection of the promise is handled
    by no one. *)
Definition watchAutoSwitchRequests_listener (target : string) : M unit :=
  fun e =>
    let r := watchAutoSwitchRequests_promise target e in
    {| outcome := Ok tt; after := after r; calls := calls r |}.

(** The listeners [init] can register. *)
Inductive Hook :=
| OnBeforeRequest
| OnCookiesChanged
| OnMessage
| OnBeforeSendHeaders.

(** [init]: the run of the awaited [syncAccounts] and the listeners
    registered after it, in order. *)
Definition init (e : Ext) : Run unit * list Hook :=
  let r := syncAccounts e in
  match outcome r with
  | Ok _ =>
      (r,
       [OnBeforeRequest; OnCookiesChanged; OnMessage]
         ++ (if negb (co_declarativeNetRequest C) then [OnBeforeSendHeaders] else []))
  | Throw _ => (r, [])
  end.

(** A source is a valid expression that matches, or does not match, the
    target. *)
Definition pattern_matches (source target : string) (b : bool) : Prop :=
  exists test, co_RegExp C source = inr test /\ test target = b.

(** The calls the fallback interceptor makes. *)
Definition is_interceptor_call (c : Call) : bool :=
  match c with RuleGetAll | AccountFind _ | ConsoleInfo _ => true | _ => false end.

Definition is_find (c : Call) : bool :=
  match c with AccountFind _ => true | _ => false end.

Definition is_switch (c : Call) : bool :=
  match c with AccountSwitchTo _ => true | _ => false end.

Definition is_warn (c : Call) : bool :=
  match c with ConsoleWarn _ => true | _ => false end.

(** Calls to the platform's filtering engine. *)
Definition is_engine_call (c : Call) : bool :=
  match c with GetDynamicRules | UpdateDynamicRules _ => true | _ => false end.

(** Whether an account lookup gave stored cookies. *)
Definition has_cookies (a : option Account) : bool :=
  match cookies_or_empty a with [] => false | _ :: _ => true end.

(** Every pending timer is due within the next 300 ms, not at once, and
    its handle is older than the next one to be given. *)
Definition timers_in_window (w : Loop) : Prop :=
  forall x, In x (timers w) ->
    (now w < timer_due x <= now w + 300)%N /\ (timer_id x < nextTimer w)%positive.

End Background.

Arguments Ok {Error A} a.
Arguments Throw {Error A} e.
Arguments D_undefined {Value}.
Arguments D_names {Value} names.
Arguments D_rules {Value} rules.
Arguments D_value {Value} v.
Arguments success_true {Value Error} data.
Arguments success_false {Value Error} error.
Arguments CookieChanged {Ext Error} changeInfo.
Arguments Elapse {Ext Error} dt.
Arguments Listener {Ext Error} m.
Arguments Outside {Ext Error} f.
Arguments burst_events {Ext Error} b.

(* ------------------------------------------------------------------ *)
(** ** In-memory collaborators

    A concrete set of collaborators, used to run the script on concrete
    inputs: stores kept in lists, an engine that removes then adds, a
    network that answers 404, and a regular-expression engine for
    sources that are alternatives of literal text. *)

Module Mem.

Record State := {
  accounts : list Account;
  rules : list AutoSwitchRule;
  jar : list Cookie;
  dynamic : list Rule;
  badge : string;
  (** the cookie store refuses to clear *)
  locked : bool
}.

Definition with_accounts (v : list Account) (s : State) : State :=
  {| accounts := v; rules := rules s; jar := jar s; dynamic := dynamic s;
     badge := badge s; locked := locked s |}.
Definition with_jar (v : list Cookie) (s : State) : State :=
  {| accounts := accounts s; rules := rules s; jar := v; dynamic := dynamic s;
     badge := badge s; locked := locked s |}.
Definition with_dynamic (v : list Rule) (s : State) : State :=
  {| accounts := accounts s; rules := rules s; jar := jar s; dynamic := v;
     badge := badge s; locked := locked s |}.
Definition with_badge (v : string) (s : State) : State :=
  {| accounts := accounts s; rules := rules s; jar := jar s; dynamic := dynamic s;
     badge := v; locked := locked s |}.

Definition find_account (n : string) (s : State) : option Account :=
  find (fun a => String.eqb (account_name a) n) (accounts s).

Definition upsert (n : string) (cs : list Cookie) (s : State) : State :=
  with_accounts
    (filter (fun a => negb (String.eqb (account_name a) n)) (accounts s)
       ++ [ {| account_name := n; cookies := cs |} ]) s.

(** Whether [needle] occurs in [hay]. *)
Fixpoint occurs (needle hay : string) : bool :=
  if String.prefix needle hay then true
  else match hay with
       | EmptyString => false
       | String _ rest => occurs needle rest
       end.

(** The alternatives of a source, split at [|]. *)
Fixpoint alternatives (source cur : string) : list string :=
  match source with
  | EmptyString => [cur]
  | String c rest =>
      if Ascii.eqb c "|"%char then cur :: alternatives rest EmptyString
      else alternatives rest (cur ++ String c EmptyString)%string
  end.

Definition literal_test (source subject : string) : bool :=
  existsb (fun alt => occurs alt subject) (alternatives source EmptyString).

(** The collaborators, with or without the platform's declarative
    filtering. *)
Definition make (engine : bool) : Collaborators State unit string := {|
  co_cookie_get := fun n s =>
    (Ok (find (fun c => String.eqb (cookie_name c) n) (jar s)), s);
  co_cookie_getAll := fun s => (Ok (jar s), s);
  co_cookie_clear := fun s =>
    if locked s then (Throw "cookie store locked", s) else (Ok tt, with_jar [] s);
  co_account_upsert := fun n cs s => (Ok tt, upsert n cs s);
  co_account_getAll := fun s => (Ok (accounts s), s);
  co_account_getAllNames := fun s => (Ok (map account_name (accounts s)), s);
  co_account_find := fun n s => (Ok (find_account n s), s);
  co_account_remove := fun n s =>
    (Ok tt,
     with_accounts (filter (fun a => negb (String.eqb (account_name a) n)) (accounts s)) s);
  co_account_switchTo := fun n s =>
    (Ok tt, with_jar (cookies_or_empty (find_account n s)) s);
  co_account_saveAvatar := fun _ _ s => (Ok tt, s);
  co_rule_getAll := fun s => (Ok (rules s), s);
  co_setBadgeText := fun t s => (Ok tt, with_badge t s);
  co_declarativeNetRequest := engine;
  co_getDynamicRules := fun s => (Ok (dynamic s), s);
  co_updateDynamicRules := fun o s =>
    (Ok tt,
     with_dynamic
       (filter (fun r => negb (existsb (Z.eqb (id r)) (removeRuleIds o))) (dynamic s)
          ++ addRules o) s);
  co_fetch := fun target s => (Ok {| status := 404; url := target |}, s);
  co_RegExp := fun source => inr (literal_test source)
|}.

Definition collaborators : Collaborators State unit string := make true.

(** The platform without declarative filtering, where the fallback
    interceptor is registered. *)
Definition fallback : Collaborators State unit string := make false.

Definition empty : State :=
  {| accounts := []; rules := []; jar := []; dynamic := []; badge := ""; locked := false |}.

(** [alice] with two stored cookies. *)
Definition alice_two_cookies : State :=
  {| accounts :=
       [ {| account_name := "alice";
            cookies := [ {| cookie_name := "a"; cookie_value := "1" |};
                         {| cookie_name := "b"; cookie_value := "2" |} ] |} ];
     rules := []; jar := []; dynamic := []; badge := ""; locked := false |}.

(** Rules for [alice] then [bob], both patterns occurring in
    [https://github.com/org1/x]; only [bob] has stored cookies.  One
    filter rule of an earlier compilation is installed. *)
Definition only_bob_has_cookies : State :=
  {| accounts :=
       [ {| account_name := "alice"; cookies := [] |};
         {| account_name := "bob";
            cookies := [ {| cookie_name := "s"; cookie_value := "x" |} ] |} ];
     rules := [ {| account := "alice"; urlPattern := "github.com/org1" |};
                {| account := "bob"; urlPattern := "github.com/org" |} ];
     jar := [ {| cookie_name := "dotcom_user"; cookie_value := "bob" |};
              {| cookie_name := "user_session"; cookie_value := "zz" |} ];
     dynamic :=
       [ {| id := 1; priority := 1;
            action := {| action_type := "modifyHeaders"; requestHeaders := [] |};
            condition := {| regexFilter := "stale"; resourceTypes := RESOURCE_TYPES |} |} ];
     badge := ""; locked := false |}.

(** One rule, for [alice], whose stored cookie is [s=x]. *)
Definition alice_rule : State :=
  {| accounts :=
       [ {| account_name := "alice";
            cookies := [ {| cookie_name := "s"; cookie_value := "x" |} ] |} ];
     rules := [ {| account := "alice"; urlPattern := "github.com/org1" |} ];
     jar := []; dynamic := []; badge := ""; locked := false |}.

(** Rules for [alice] then [bob], both patterns occurring in
    [https://github.com/org1/x], and both accounts with stored
    cookies. *)
Definition alice_then_bob : State :=
  {| accounts :=
       [ {| account_name := "alice";
            cookies := [ {| cookie_name := "s"; cookie_value := "x" |} ] |};
         {| account_name := "bob";
            cookies := [ {| cookie_name := "t"; cookie_value := "y" |} ] |} ];
     rules := [ {| account := "alice"; urlPattern := "github.com/org1" |};
                {| account := "bob"; urlPattern := "github.com/org" |} ];
     jar := []; dynamic := []; badge := ""; locked := false |}.

(** The same accounts with the two rules in the other order. *)
Definition bob_then_alice : State :=
  {| accounts := accounts alice_then_bob;
     rules := [ {| account := "bob"; urlPattern := "github.com/org" |};
                {| account := "alice"; urlPattern := "github.com/org1" |} ];
     jar := []; dynamic := []; badge := ""; locked := false |}.

(** A cookie store that refuses to clear. *)
Definition locked_store : State :=
  {| accounts := []; rules := []; jar := []; dynamic := []; badge := ""; locked := true |}.

Definition cookie_set (n : string) : ChangeInfo :=
  {| changed_cookie := {| cookie_name := n; cookie_value := "v" |}; removed := false |}.

Definition cookie_removed (n : string) : ChangeInfo :=
  {| changed_cookie := {| cookie_name := n; cookie_value := "v" |}; removed := true |}.

(** The outside storing a cookie in the jar. *)
Definition store_cookie (n v : string) (s : State) : State :=
  with_jar (filter (fun c => negb (String.eqb (cookie_name c) n)) (jar s)
              ++ [ {| cookie_name := n; cookie_value := v |} ]) s.

(** The collaborators of [make], with another network, another
    regular-expression engine and another account removal. *)
Definition custom (engine : bool)
    (fetch_op : string -> Op State string FetchResponse)
    (regexp : string -> string + (string -> bool))
    (remove_op : string -> Op State string unit)
  : Collaborators State unit string := {|
  co_cookie_get := co_cookie_get (make engine);
  co_cookie_getAll := co_cookie_getAll (make engine);
  co_cookie_clear := co_cookie_clear (make engine);
  co_account_upsert := co_account_upsert (make engine);
  co_account_getAll := co_account_getAll (make engine);
  co_account_getAllNames := co_account_getAllNames (make engine);
  co_account_find := co_account_find (make engine);
  co_account_remove := remove_op;
  co_account_switchTo := co_account_switchTo (make engine);
  co_account_saveAvatar := co_account_saveAvatar (make engine);
  co_rule_getAll := co_rule_getAll (make engine);
  co_setBadgeText := co_setBadgeText (make engine);
  co_declarativeNetRequest := engine;
  co_getDynamicRules := co_getDynamicRules (make engine);
  co_updateDynamicRules := co_updateDynamicRules (make engine);
  co_fetch := fetch_op;
  co_RegExp := regexp
|}.

(** A network that answers 200. *)
Definition avatar_found : Collaborators State unit string :=
  custom true (fun target s => (Ok {| status := 200; url := target |}, s))
    (co_RegExp (make true)) (co_account_remove (make true)).

(** A network that is down. *)
Definition offline : Collaborators State unit string :=
  custom true (fun target s => (Throw "network error", s))
    (co_RegExp (make true)) (co_account_remove (make true)).

(** An expression engine that rejects a source with an opening
    parenthesis, on the platform without declarative filtering. *)
Definition strict_regexp : Collaborators State unit string :=
  custom false (co_fetch (make false))
    (fun source =>
       if occurs "(" source then inl "SyntaxError" else inr (literal_test source))
    (co_account_remove (make false)).

(** An account store that refuses to remove. *)
Definition read_only_accounts : Collaborators State unit string :=
  custom true (co_fetch (make true)) (co_RegExp (make true))
    (fun n s => (Throw "account store read-only", s)).

(** The rules of [only_bob_has_cookies] after a rule whose pattern is
    no valid expression. *)
Definition broken_rule_first : State :=
  {| accounts := accounts only_bob_has_cookies;
     rules := {| account := "carol"; urlPattern := "github.com/(" |}
                :: rules only_bob_has_cookies;
     jar := []; dynamic := []; badge := ""; locked := false |}.

(** The jar holds no session cookie. *)
Definition no_session : State :=
  {| accounts := []; rules := [];
     jar := [ {| cookie_name := "dotcom_user"; cookie_value := "bob" |} ];
     dynamic := []; badge := ""; locked := false |}.

(** The collaborators of [make true] with another account lookup and
    another reading of the installed rules. *)
Definition custom_reads
    (find_op : string -> Op State string (option Account))
    (installed_op : Op State string (list Rule))
  : Collaborators State unit string := {|
  co_cookie_get := co_cookie_get (make true);
  co_cookie_getAll := co_cookie_getAll (make true);
  co_cookie_clear := co_cookie_clear (make true);
  co_account_upsert := co_account_upsert (make true);
  co_account_getAll := co_account_getAll (make true);
  co_account_getAllNames := co_account_getAllNames (make true);
  co_account_find := find_op;
  co_account_remove := co_account_remove (make true);
  co_account_switchTo := co_account_switchTo (make true);
  co_account_saveAvatar := co_account_saveAvatar (make true);
  co_rule_getAll := co_rule_getAll (make true);
  co_setBadgeText := co_setBadgeText (make true);
  co_declarativeNetRequest := true;
  co_getDynamicRules := installed_op;
  co_updateDynamicRules := co_updateDynamicRules (make true);
  co_fetch := co_fetch (make true);
  co_RegExp := co_RegExp (make true)
|}.

(** A filtering engine that cannot be read. *)
Definition engine_down : Collaborators State unit string :=
  custom_reads (co_account_find (make true)) (fun s => (Throw "engine unavailable", s)).

(** An account store that cannot be searched. *)
Definition accounts_down : Collaborators State unit string :=
  custom_reads (fun n s => (Throw "account store unavailable", s))
    (co_getDynamicRules (make true)).

End Mem.

Unset Implicit Arguments.

(* ------------------------------------------------------------------ *)
(** ** Strings and lists *)

Lemma append_assoc (a b c : string) : ((a ++ b) ++ c = a ++ (b ++ c))%string.
Proof. induction a as [|x a IH]; simpl; [reflexivity | now rewrite IH]. Qed.

Lemma append_nonempty (a : string) (c : ascii) (b : string) :
  String.eqb (a ++ String c b)%string "" = false.
Proof. destruct a; reflexivity. Qed.

Lemma cookie_header_spec_nonempty (cs : list Cookie) (n : string) :
  String.eqb (cookie_header_spec cs n) "" = false.
Proof.
  destruct cs as [|c rest]; simpl.
  - reflexivity.
  - apply append_nonempty.
Qed.

Lemma truthy_cookie_header (cs : list Cookie) (n : string) :
  truthy (Some (cookie_header_spec cs n)) = Some (cookie_header_spec cs n).
Proof. unfold truthy. now rewrite cookie_header_spec_nonempty. Qed.

(** The source's [map], [concat] and [join] build the header value of
    the specification. *)
Lemma join_cookie_header (cs : list Cookie) (n : string) :
  join "; "
    (map (fun cookie => (cookie_name cookie ++ "=" ++ cookie_value cookie)%string) cs
       ++ [("__account__=" ++ n)%string])
  = cookie_header_spec cs n.
Proof.
  unfold join. induction cs as [|c rest IH].
  - reflexivity.
  - cbn [map app cookie_header_spec String.concat].
    destruct (map _ rest ++ _) eqn:E.
    + destruct rest; discriminate E.
    + rewrite IH. now rewrite !append_assoc.
Qed.

Lemma filter_all {A} (p : A -> bool) (l : list A) :
  forallb p l = true -> filter p l = l.
Proof.
  induction l as [|x l IH]; [reflexivity|]. cbn [forallb filter]. intros H.
  apply andb_prop in H. destruct H as [Hx Hl]. rewrite Hx. now rewrite IH.
Qed.

Lemma filter_none {A} (p : A -> bool) (l : list A) :
  forallb (fun x => negb (p x)) l = true -> filter p l = [].
Proof.
  induction l as [|x l IH]; [reflexivity|]. cbn [forallb filter]. intros H.
  apply andb_prop in H. destruct H as [Hx Hl]. apply negb_true_iff in Hx.
  rewrite Hx. now apply IH.
Qed.

Lemma in_entries_from {A} (l : list A) (k i : nat) (x : A) :
  In (i, x) (combine (seq k (length l)) l) <-> k <= i /\ nth_error l (i - k) = Some x.
Proof.
  revert k. induction l as [|a l IH]; intros k; simpl.
  - split; [tauto | intros [_ H]; destruct (i - k); discriminate].
  - rewrite IH. split.
    + intros [H | [H1 H2]].
      * inversion H; subst. rewrite Nat.sub_diag. split; [lia | reflexivity].
      * split; [lia|]. replace (i - k) with (S (i - S k)) by lia. exact H2.
    + intros [H1 H2]. destruct (i - k) as [|d] eqn:E.
      * left. inversion H2; subst. f_equal. lia.
      * right. split; [lia|]. replace (i - S k) with d by lia. exact H2.
Qed.

Lemma in_entries {A} (l : list A) (i : nat) (x : A) :
  In (i, x) (entries l) <-> nth_error l i = Some x.
Proof.
  unfold entries. rewrite in_entries_from, Nat.sub_0_r. intuition lia.
Qed.

(* ------------------------------------------------------------------ *)
(** ** Running binds *)

Section Running.

Variables (Ext Error : Type).

Lemma bind_call_ok {A B} (c : Call) (op : Op Ext Error A) (f : A -> M Ext Error B)
    (e e1 : Ext) (a : A) :
  op e = (Ok a, e1) ->
  bind (call c op) f e =
    {| outcome := outcome (f a e1); after := after (f a e1); calls := c :: calls (f a e1) |}.
Proof. intros H. unfold bind, call. rewrite H. reflexivity. Qed.

Lemma bind_call_throw {A B} (c : Call) (op : Op Ext Error A) (f : A -> M Ext Error B)
    (e e1 : Ext) (x : Error) :
  op e = (Throw x, e1) ->
  bind (call c op) f e = {| outcome := Throw x; after := e1; calls := [c] |}.
Proof. intros H. unfold bind, call. rewrite H. reflexivity. Qed.

Lemma bind_run_ok {A B} (m : M Ext Error A) (f : A -> M Ext Error B)
    (e e1 : Ext) (a : A) (cs : list Call) :
  m e = {| outcome := Ok a; after := e1; calls := cs |} ->
  bind m f e =
    {| outcome := outcome (f a e1); after := after (f a e1); calls := cs ++ calls (f a e1) |}.
Proof. intros H. unfold bind. rewrite H. reflexivity. Qed.

Lemma bind_run_throw {A B} (m : M Ext Error A) (f : A -> M Ext Error B)
    (e e1 : Ext) (x : Error) (cs : list Call) :
  m e = {| outcome := Throw x; after := e1; calls := cs |} ->
  bind m f e = {| outcome := Throw x; after := e1; calls := cs |}.
Proof. intros H. unfold bind. rewrite H. reflexivity. Qed.

Lemma calls_bind {A B} (m : M Ext Error A) (f : A -> M Ext Error B) (e : Ext) :
  calls (bind m f e) =
    calls (m e) ++ match outcome (m e) with
                   | Ok a => calls (f a (after (m e)))
                   | Throw _ => []
                   end.
Proof. unfold bind. destruct (outcome (m e)); cbn [calls]; now rewrite ?app_nil_r. Qed.

Lemma calls_bind_call {A B} (c : Call) (op : Op Ext Error A) (f : A -> M Ext Error B)
    (e : Ext) :
  calls (bind (call c op) f e) =
    c :: match op e with
         | (Ok a, e1) => calls (f a e1)
         | (Throw _, _) => []
         end.
Proof. unfold bind, call. destruct (op e) as [[a|x] e1]; reflexivity. Qed.

Lemma run_eta {A} (r : Run Ext Error A) :
  r = {| outcome := outcome r; after := after r; calls := calls r |}.
Proof. now destruct r. Qed.

End Running.

(* ------------------------------------------------------------------ *)
(** ** The rule compiler *)

Section Compiler.

Variables (Ext Value Error : Type) (C : Collaborators Ext Value Error).

Lemma buildCookieValue_run (n : string) (e e' : Ext) (found : option Account) :
  co_account_find C n e = (Ok found, e') ->
  buildCookieValue C n e =
    {| outcome :=
         Ok match cookies_or_empty found with
            | [] => None
            | cs => Some (cookie_header_spec cs n)
            end;
       after := e';
       calls := [AccountFind n] |}.
Proof.
  intros H. unfold buildCookieValue, bind, accountService_find, call. rewrite H.
  cbn [outcome after calls]. rewrite join_cookie_header.
  destruct (cookies_or_empty found) as [|c cs]; reflexivity.
Qed.

Lemma buildAddRules_loop_run (accounts : string -> option Account) (e : Ext) :
  (forall n, co_account_find C n e = (Ok (accounts n), e)) ->
  forall es acc,
    buildAddRules_loop C es acc e =
      {| outcome := Ok (acc ++ expected_rules accounts es);
         after := e;
         calls := map (fun p => AccountFind (account (snd p))) es |}.
Proof.
  intros Hfind es. induction es as [|[index rule] rest IH]; intros acc.
  - simpl. unfold ret. now rewrite app_nil_r.
  - cbn [buildAddRules_loop]. unfold bind at 1.
    rewrite (buildCookieValue_run _ _ _ _ (Hfind (account rule))).
    cbn [outcome after calls expected_rules flat_map map snd].
    destruct (cookies_or_empty (accounts (account rule))) as [|c cs] eqn:E.
    + cbn [truthy]. rewrite IH. reflexivity.
    + rewrite truthy_cookie_header, IH. cbn [outcome after calls].
      now rewrite <- app_assoc.
Qed.

Lemma buildAddRules_run (rules : list AutoSwitchRule) (accounts : string -> option Account)
    (e : Ext) :
  stores_hold C rules accounts e ->
  buildAddRules C e =
    {| outcome := Ok (expected_rules accounts (entries rules));
       after := e;
       calls := RuleGetAll :: map (fun r => AccountFind (account r)) rules |}.
Proof.
  intros [Hrules Hfind]. unfold buildAddRules, bind, ruleService_getAll, call.
  rewrite Hrules. cbn [outcome after calls].
  rewrite (buildAddRules_loop_run _ _ Hfind). cbn [outcome after calls app].
  do 2 f_equal. unfold entries. clear Hrules.
  generalize 0. induction rules as [|r rules IH]; intros k; simpl.
  - reflexivity.
  - now rewrite IH.
Qed.

Lemma in_expected_rules (accounts : string -> option Account)
    (es : list (nat * AutoSwitchRule)) (cr : Rule) :
  In cr (expected_rules accounts es) <->
  exists index rule,
    In (index, rule) es /\
    cookies_or_empty (accounts (account rule)) <> [] /\
    cr = {| id := Z.of_nat index + 1;
            priority := 1;
            action :=
              {| action_type := "modifyHeaders";
                 requestHeaders :=
                   [ {| mh_header := "Cookie"; mh_operation := "set";
                        mh_value :=
                          cookie_header_spec (cookies_or_empty (accounts (account rule)))
                            (account rule) |} ] |};
            condition :=
              {| regexFilter := (urlPattern rule ++ "|__account__=" ++ account rule)%string;
                 resourceTypes := RESOURCE_TYPES |} |}.
Proof.
  unfold expected_rules. rewrite in_flat_map. split.
  - intros [[index rule] [Hin Hcr]].
    destruct (cookies_or_empty (accounts (account rule))) as [|c cs] eqn:E.
    + destruct Hcr.
    + destruct Hcr as [Hcr | []]. exists index, rule. rewrite E.
      repeat split; [exact Hin | discriminate | now symmetry].
  - intros (index & rule & Hin & Hne & Hcr). exists (index, rule). split; [exact Hin|].
    destruct (cookies_or_empty (accounts (account rule))) as [|c cs] eqn:E.
    + now destruct Hne.
    + left. now symmetry.
Qed.

(** The compiled ids grow along the input: each is above the first
    index and below every later one. *)
Lemma expected_rules_sorted (accounts : string -> option Account) (l : list AutoSwitchRule) :
  forall k,
    StronglySorted Z.lt (map id (expected_rules accounts (combine (seq k (length l)) l))) /\
    Forall (fun i => (Z.of_nat k < i)%Z)
      (map id (expected_rules accounts (combine (seq k (length l)) l))).
Proof.
  induction l as [|r l IH]; intros k.
  - simpl. split; constructor.
  - destruct (IH (S k)) as [Hs Hb].
    assert (Hb' : Forall (fun i => (Z.of_nat k + 1 < i)%Z)
                    (map id (expected_rules accounts (combine (seq (S k) (length l)) l)))).
    { eapply Forall_impl; [|exact Hb]. cbv beta. intros; lia. }
    cbn [length seq combine expected_rules flat_map].
    fold (expected_rules accounts (combine (seq (S k) (length l)) l)).
    destruct (cookies_or_empty (accounts (account r))) as [|c cs].
    + cbn [app]. split; [exact Hs|].
      eapply Forall_impl; [|exact Hb]. cbv beta. intros; lia.
    + cbn [app map id]. split.
      * constructor; assumption.
      * constructor; [lia|]. eapply Forall_impl; [|exact Hb]. cbv beta. intros; lia.
Qed.

Lemma sorted_NoDup (l : list Z) : StronglySorted Z.lt l -> NoDup l.
Proof.
  induction 1 as [|a l Hs IH Hall]; constructor; [|exact IH].
  intros Hin. rewrite Forall_forall in Hall. specialize (Hall a Hin). lia.
Qed.

(** C2. For every account name, [buildCookieValue] returns [None] when
    the account store does not know the account or holds no cookie for
    it; otherwise it returns the cookies as [name=value] pairs separated
    by [; ] with the marker pair [__account__=<accountName>] last.  For
    account [alice] with cookies [a=1] and [b=2] the result is exactly
    [a=1; b=2; __account__=alice]. *)
Theorem buildCookieValue_none_or_header :
  forall (accountName : string) (e e' : Ext) (found : option Account),
    co_account_find C accountName e = (Ok found, e') ->
    (found = None -> outcome (buildCookieValue C accountName e) = Ok None) /\
    (forall a, found = Some a -> cookies a = [] ->
       outcome (buildCookieValue C accountName e) = Ok None) /\
    (forall a, found = Some a -> cookies a <> [] ->
       outcome (buildCookieValue C accountName e)
       = Ok (Some (cookie_header_spec (cookies a) accountName))) /\
    (accountName = "alice" ->
     found = Some {| account_name := "alice";
                     cookies := [ {| cookie_name := "a"; cookie_value := "1" |};
                                  {| cookie_name := "b"; cookie_value := "2" |} ] |} ->
     outcome (buildCookieValue C accountName e) = Ok (Some "a=1; b=2; __account__=alice")).
Proof.
  intros accountName e e' found H.
  rewrite (buildCookieValue_run _ _ _ _ H). cbn [outcome].
  repeat split.
  - intros ->. reflexivity.
  - intros a -> Hc. simpl. now rewrite Hc.
  - intros a -> Hc. simpl. destruct (cookies a); [now destruct Hc | reflexivity].
  - intros -> ->. reflexivity.
Qed.

(** C1. For every ordered rule list, [buildAddRules] emits, for each
    rule whose account has a non-empty cookie set, a filter rule with
    [id] the rule's index in the original list plus one, [priority] 1,
    the [Cookie] header set to the account's cookie header value,
    [regexFilter] the rule's pattern or the account marker, and the five
    fixed resource types; it emits nothing else and no id twice.  For
    the rules of [alice] then [bob] where only [bob] has cookies the
    output is exactly one rule, with id 2. *)
Theorem buildAddRules_emits :
  forall (rules : list AutoSwitchRule) (accounts : string -> option Account) (e : Ext),
    stores_hold C rules accounts e ->
    exists rs,
      outcome (buildAddRules C e) = Ok rs /\
      (forall index rule,
         nth_error rules index = Some rule ->
         cookies_or_empty (accounts (account rule)) <> [] ->
         exists cr,
           In cr rs /\
           compiled_from index rule
             (cookie_header_spec (cookies_or_empty (accounts (account rule))) (account rule))
             cr) /\
      (forall cr,
         In cr rs ->
         exists index rule,
           nth_error rules index = Some rule /\
           cookies_or_empty (accounts (account rule)) <> [] /\
           compiled_from index rule
             (cookie_header_spec (cookies_or_empty (accounts (account rule))) (account rule))
             cr) /\
      NoDup (map id rs) /\
      (forall P1 P2,
         rules = [ {| account := "alice"; urlPattern := P1 |};
                   {| account := "bob"; urlPattern := P2 |} ] ->
         cookies_or_empty (accounts "alice") = [] ->
         cookies_or_empty (accounts "bob") <> [] ->
         exists cr, rs = [cr] /\ id cr = 2%Z).
Proof.
  intros rules accounts e H.
  exists (expected_rules accounts (entries rules)).
  rewrite (buildAddRules_run _ _ _ H). cbn [outcome].
  split; [reflexivity|]. split; [|split; [|split]].
  - intros index rule Hn Hne. eexists. split.
    + apply in_expected_rules. exists index, rule.
      split; [now apply in_entries | split; [exact Hne | reflexivity]].
    + repeat split.
  - intros cr Hin. apply in_expected_rules in Hin.
    destruct Hin as (index & rule & Hin & Hne & ->).
    exists index, rule. split; [now apply in_entries | split; [exact Hne|]].
    repeat split.
  - apply sorted_NoDup. apply (expected_rules_sorted accounts rules 0).
  - intros P1 P2 -> Ha Hb. cbn. cbn in Ha, Hb. rewrite Ha.
    destruct (cookies_or_empty (accounts "bob")) as [|c cs]; [now destruct Hb|].
    eexists. split; reflexivity.
Qed.

(** C9. Rule compilation is deterministic and idempotent: in any two
    collaborator states where the rule store and the account store hold
    the same content the compiler returns the same rule list; it leaves
    the collaborator state as it found it, so a second invocation right
    after the first returns that list again; the list is ordered by
    strictly growing id, that is, along the input order.  When the
    filtering engine leaves the stores alone, every update issued by two
    consecutive reconciliations carries that same list. *)
Theorem compilation_deterministic :
  forall (rules : list AutoSwitchRule) (accounts : string -> option Account) (e e' : Ext),
    stores_hold C rules accounts e ->
    stores_hold C rules accounts e' ->
    exists rs,
      outcome (buildAddRules C e) = Ok rs /\
      after (buildAddRules C e) = e /\
      outcome (buildAddRules C (after (buildAddRules C e))) = Ok rs /\
      outcome (buildAddRules C e') = Ok rs /\
      StronglySorted Z.lt (map id rs) /\
      (engine_keeps_stores C rules accounts ->
       forall o,
         In (UpdateDynamicRules o)
            (calls (updateDynamicRequestRules C e)
               ++ calls (updateDynamicRequestRules C
                           (after (updateDynamicRequestRules C e)))) ->
         addRules o = rs).
Proof.
  intros rules accounts e e' H H'.
  exists (expected_rules accounts (entries rules)).
  rewrite (buildAddRules_run _ _ _ H), (buildAddRules_run _ _ _ H'). cbn [outcome after].
  rewrite (buildAddRules_run _ _ _ H). cbn [outcome].
  repeat (split; [reflexivity|]).
  split; [apply (expected_rules_sorted accounts rules 0)|].
  intros Hkeep.
  assert (Hone : forall e0, stores_hold C rules accounts e0 ->
            stores_hold C rules accounts (after (updateDynamicRequestRules C e0)) /\
            forall o, In (UpdateDynamicRules o) (calls (updateDynamicRequestRules C e0)) ->
                      addRules o = expected_rules accounts (entries rules)).
  { intros e0 H0. unfold updateDynamicRequestRules.
    destruct (co_declarativeNetRequest C); cbn [negb].
    2:{ split; [exact H0 | intros o []]. }
    unfold getDynamicRules, updateDynamicRules.
    pose proof (proj1 (Hkeep e0 H0)) as H1.
    destruct (co_getDynamicRules C e0) as [[existing|x] e1] eqn:E1; cbn [snd] in H1.
    2:{ rewrite (bind_call_throw _ _ _ _ _ _ _ _ E1). cbn [after calls].
        split; [exact H1|]. intros o [Hc|[]]; discriminate Hc. }
    rewrite (bind_call_ok _ _ _ _ _ _ _ _ E1).
    rewrite (bind_run_ok _ _ _ _ _ _ _ _ (buildAddRules_run _ _ _ H1)).
    pose proof (proj2 (Hkeep e1 H1)
                  {| removeRuleIds := map id existing;
                     addRules := expected_rules accounts (entries rules) |}) as H2.
    destruct (co_updateDynamicRules C _ e1) as [[[]|x] e2] eqn:E2; cbn [snd] in H2.
    2:{ rewrite (bind_call_throw _ _ _ _ _ _ _ _ E2). cbn [after calls].
        split; [exact H2|]. intros o Hin. cbn [In app] in Hin.
        destruct Hin as [Hin|[Hin|Hin]]; try discriminate Hin.
        apply in_app_or in Hin. destruct Hin as [Hin|Hin].
        - apply in_map_iff in Hin. destruct Hin as (r & Hr & _). discriminate Hr.
        - destruct Hin as [Hin|[]]. now inversion Hin. }
    rewrite (bind_call_ok _ _ _ _ _ _ _ _ E2).
    pose proof (proj1 (Hkeep e2 H2)) as H3.
    destruct (co_getDynamicRules C e2) as [[rs3|x] e3] eqn:E3; cbn [snd] in H3.
    - rewrite (bind_call_ok _ _ _ _ _ _ _ _ E3). cbn [after calls console_info outcome].
      split; [exact H3|]. intros o Hin. cbn [In app] in Hin.
      destruct Hin as [Hin|[Hin|Hin]]; try discriminate Hin.
      apply in_app_or in Hin. destruct Hin as [Hin|Hin].
      + apply in_map_iff in Hin. destruct Hin as (r & Hr & _). discriminate Hr.
      + destruct Hin as [Hin|[Hin|[Hin|[]]]]; try discriminate Hin. now inversion Hin.
    - rewrite (bind_call_throw _ _ _ _ _ _ _ _ E3). cbn [after calls outcome].
      split; [exact H3|]. intros o Hin. cbn [In app] in Hin.
      destruct Hin as [Hin|[Hin|Hin]]; try discriminate Hin.
      apply in_app_or in Hin. destruct Hin as [Hin|Hin].
      + apply in_map_iff in Hin. destruct Hin as (r & Hr & _). discriminate Hr.
      + destruct Hin as [Hin|[Hin|[]]]; try discriminate Hin. now inversion Hin. }
  intros o Hin. apply in_app_or in Hin.
  destruct (Hone e H) as [Hafter Hfirst].
  destruct Hin as [Hin|Hin].
  - now apply Hfirst.
  - now apply (proj2 (Hone _ Hafter)).
Qed.

End Compiler.

(* ------------------------------------------------------------------ *)
(** ** Reconciliation *)

Section Reconcile.

Variables (Ext Value Error : Type) (C : Collaborators Ext Value Error).

Lemma buildCookieValue_calls (n : string) (e : Ext) :
  calls (buildCookieValue C n e) = [AccountFind n].
Proof.
  unfold buildCookieValue, bind, accountService_find, call.
  destruct (co_account_find C n e) as [[found|x] e1]; cbn [outcome after calls].
  - destruct (Nat.eqb _ 0); reflexivity.
  - reflexivity.
Qed.

(** Whatever the collaborators do, the compiler only reads the rule
    store and looks accounts up. *)
Lemma buildAddRules_loop_calls (es : list (nat * AutoSwitchRule)) :
  forall acc e, forallb is_compiler_call (calls (buildAddRules_loop C es acc e)) = true.
Proof.
  induction es as [|[index rule] rest IH]; intros acc e.
  - reflexivity.
  - cbn [buildAddRules_loop]. rewrite calls_bind, buildCookieValue_calls.
    cbn [app forallb is_compiler_call andb].
    destruct (outcome (buildCookieValue C (account rule) e)) as [v|x]; [|reflexivity].
    destruct (truthy v); apply IH.
Qed.

Lemma buildAddRules_calls (e : Ext) :
  forallb is_compiler_call (calls (buildAddRules C e)) = true.
Proof.
  unfold buildAddRules. rewrite calls_bind. unfold ruleService_getAll at 1, call at 1.
  destruct (co_rule_getAll C e) as [o e1] eqn:E. cbn [calls app forallb is_compiler_call andb].
  unfold ruleService_getAll, call. rewrite E. cbn [outcome after].
  destruct o; [apply buildAddRules_loop_calls | reflexivity].
Qed.

Lemma compiler_calls_no_update (cs : list Call) :
  forallb is_compiler_call cs = true -> filter is_update cs = [].
Proof.
  induction cs as [|c cs IH]; [reflexivity|]. cbn [forallb filter].
  intros H. apply andb_prop in H. destruct H as [Hc Hcs].
  destruct c; try discriminate Hc; cbn [is_update]; now apply IH.
Qed.

(** C7. [updateDynamicRequestRules] is a no-op when the platform has no
    declarative filtering: nothing is called and nothing changes.
    Otherwise it reads the installed rules, compiles a fresh rule set and
    issues one update, and one only, that removes the ids of all the
    installed rules and adds all the compiled ones. *)
Theorem updateDynamicRequestRules_reconciles :
  (co_declarativeNetRequest C = false ->
   forall e,
     updateDynamicRequestRules C e = {| outcome := Ok tt; after := e; calls := [] |}) /\
  (co_declarativeNetRequest C = true ->
   forall e e1 e2 existing compiled cs,
     co_getDynamicRules C e = (Ok existing, e1) ->
     buildAddRules C e1 = {| outcome := Ok compiled; after := e2; calls := cs |} ->
     let update :=
       UpdateDynamicRules {| removeRuleIds := map id existing; addRules := compiled |} in
     (exists tail,
        calls (updateDynamicRequestRules C e) = GetDynamicRules :: cs ++ update :: tail) /\
     filter is_update (calls (updateDynamicRequestRules C e)) = [update]).
Proof.
  split.
  - intros H e. unfold updateDynamicRequestRules. now rewrite H.
  - intros H e e1 e2 existing compiled cs Hget Hbuild update.
    unfold updateDynamicRequestRules. rewrite H. cbn [negb].
    unfold getDynamicRules, updateDynamicRules.
    rewrite (bind_call_ok _ _ _ _ _ _ _ _ Hget).
    rewrite (bind_run_ok _ _ _ _ _ _ _ _ Hbuild).
    cbn [calls]. fold update.
    assert (Hcs : filter is_update cs = []).
    { apply compiler_calls_no_update.
      pose proof (buildAddRules_calls e1) as Hc. now rewrite Hbuild in Hc. }
    destruct (co_updateDynamicRules C
                {| removeRuleIds := map id existing; addRules := compiled |} e2)
      as [[[]|x] e3] eqn:E2.
    + rewrite (bind_call_ok _ _ _ _ _ _ _ _ E2).
      destruct (co_getDynamicRules C e3) as [[rs|x] e4] eqn:E3.
      * rewrite (bind_call_ok _ _ _ _ _ _ _ _ E3). cbn [calls console_info]. split.
        -- eexists. reflexivity.
        -- cbn [filter is_update]. rewrite filter_app, Hcs. reflexivity.
      * rewrite (bind_call_throw _ _ _ _ _ _ _ _ E3). cbn [calls]. split.
        -- eexists. reflexivity.
        -- cbn [filter is_update]. rewrite filter_app, Hcs. reflexivity.
    + rewrite (bind_call_throw _ _ _ _ _ _ _ _ E2). cbn [calls]. split.
      * eexists. reflexivity.
      * cbn [filter is_update]. rewrite filter_app, Hcs. reflexivity.
Qed.

End Reconcile.

(* ------------------------------------------------------------------ *)
(** ** The message boundary *)

Section Messages.

Variables (Ext Value Error : Type) (C : Collaborators Ext Value Error).

Lemma unknown_kind_falls_through (type : string) :
  ~ known_kind type ->
  String.eqb type "getAccounts" = false /\
  String.eqb type "switchAccount" = false /\
  String.eqb type "removeAccount" = false /\
  String.eqb type "clearCookies" = false /\
  String.eqb type "getAutoSwitchRules" = false.
Proof.
  intros H. unfold known_kind in H. cbn [In] in H.
  repeat split; apply String.eqb_neq; intros ->; apply H; tauto.
Qed.

(** C10. For every command message of a known kind the listener
    resolves to [{success: true, data}] with the handler's data when the
    handler succeeds and to [{success: false, error}] with the thrown
    error when it throws, after the handler's effects in both cases; for
    every message whatever the listener resolves and never throws; and
    for a message of an unknown kind the handler calls no service and
    yields [undefined]. *)
Theorem listener_catches_handler_errors :
  forall (request : RequestMessage) (e : Ext),
    (known_kind (msg_type request) ->
     (forall data,
        outcome (handleMessage C request e) = Ok data ->
        listenMessage_listener C request e =
          {| outcome := Ok (success_true data);
             after := after (handleMessage C request e);
             calls := calls (handleMessage C request e) |}) /\
     (forall error,
        outcome (handleMessage C request e) = Throw error ->
        listenMessage_listener C request e =
          {| outcome := Ok (success_false error);
             after := after (handleMessage C request e);
             calls := calls (handleMessage C request e) |})) /\
    (exists response, outcome (listenMessage_listener C request e) = Ok response) /\
    (~ known_kind (msg_type request) ->
     handleMessage C request e = {| outcome := Ok D_undefined; after := e; calls := [] |}).
Proof.
  intros request e.
  assert (Hok : forall data,
            outcome (handleMessage C request e) = Ok data ->
            listenMessage_listener C request e =
              {| outcome := Ok (success_true data);
                 after := after (handleMessage C request e);
                 calls := calls (handleMessage C request e) |}).
  { intros data H. unfold listenMessage_listener, try_catch, bind. rewrite H.
    cbn [outcome after calls ret]. now rewrite app_nil_r. }
  assert (Hthrow : forall error,
            outcome (handleMessage C request e) = Throw error ->
            listenMessage_listener C request e =
              {| outcome := Ok (success_false error);
                 after := after (handleMessage C request e);
                 calls := calls (handleMessage C request e) |}).
  { intros error H. unfold listenMessage_listener, try_catch, bind. rewrite H.
    cbn [outcome after calls ret]. now rewrite app_nil_r. }
  split; [intros _; split; assumption|]. split.
  - destruct (outcome (handleMessage C request e)) as [data|error] eqn:E.
    + eexists. now rewrite (Hok data).
    + eexists. now rewrite (Hthrow error).
  - intros H. apply unknown_kind_falls_through in H.
    destruct H as (H1 & H2 & H3 & H4 & H5).
    unfold handleMessage. cbv zeta. now rewrite H1, H2, H3, H4, H5.
Qed.

(** The listener itself answers a message of an unknown kind: it wraps
    the handler's [undefined] as a success. *)
Remark listener_wraps_unknown_kind (request : RequestMessage) (e : Ext) :
  ~ known_kind (msg_type request) ->
  listenMessage_listener C request e =
    {| outcome := Ok (success_true D_undefined); after := e; calls := [] |}.
Proof.
  intros H. apply unknown_kind_falls_through in H.
  destruct H as (H1 & H2 & H3 & H4 & H5).
  unfold listenMessage_listener, try_catch, bind, handleMessage. cbv zeta.
  now rewrite H1, H2, H3, H4, H5.
Qed.

End Messages.

(* ------------------------------------------------------------------ *)
(** ** The fallback interceptor *)

Section Interceptor.

Variables (Ext Value Error : Type) (C : Collaborators Ext Value Error).

Lemma RegExp_test_run (rule : AutoSwitchRule) (target : string) (b : bool) (e : Ext) :
  matches C rule target b ->
  RegExp_test C (urlPattern rule ++ "|__account__=" ++ account rule)%string target e =
    {| outcome := Ok b; after := e; calls := [] |}.
Proof.
  intros (test & Hre & Ht). unfold RegExp_test. unfold combined_pattern in Hre.
  rewrite Hre. unfold ret. now rewrite Ht.
Qed.

(** The loop stops at the first rule whose pattern matches, whatever
    follows it. *)
Lemma interceptRequests_loop_first_match (accounts : string -> option Account) (e : Ext)
    (target : string) (hs : list HttpHeader) (rule : AutoSwitchRule)
    (post : list AutoSwitchRule) :
  (forall n, co_account_find C n e = (Ok (accounts n), e)) ->
  matches C rule target true ->
  forall pre,
    Forall (fun r => matches C r target false) pre ->
    interceptRequests_loop C target hs (pre ++ rule :: post) e =
      {| outcome :=
           Ok match cookies_or_empty (accounts (account rule)) with
              | [] => hs
              | cs => set_cookie_headers (cookie_header_spec cs (account rule)) hs
              end;
         after := e;
         calls := [AccountFind (account rule);
                   ConsoleInfo "interceptRequests: found an auto switch rule for url"] |}.
Proof.
  intros Hfind Hrule pre. induction pre as [|r pre IH]; intros Hpre.
  - cbn [app interceptRequests_loop].
    rewrite (bind_run_ok _ _ _ _ _ _ _ _ (RegExp_test_run _ _ _ e Hrule)).
    rewrite (bind_run_ok _ _ _ _ _ _ _ _
               (buildCookieValue_run _ _ _ C _ _ _ _ (Hfind (account rule)))).
    cbn [outcome after calls app bind console_info ret].
    destruct (cookies_or_empty (accounts (account rule))) as [|c cs].
    + reflexivity.
    + now rewrite truthy_cookie_header.
  - inversion Hpre as [|? ? Hr Hpre']; subst.
    cbn [app interceptRequests_loop].
    rewrite (bind_run_ok _ _ _ _ _ _ _ _ (RegExp_test_run _ _ _ e Hr)).
    rewrite (IH Hpre'). reflexivity.
Qed.

Lemma interceptRequests_listener_first_match (rules : list AutoSwitchRule)
    (accounts : string -> option Account) (e : Ext) (target : string)
    (hs : list HttpHeader) (pre : list AutoSwitchRule) (rule : AutoSwitchRule)
    (post : list AutoSwitchRule) :
  stores_hold C rules accounts e ->
  rules = pre ++ rule :: post ->
  Forall (fun r => matches C r target false) pre ->
  matches C rule target true ->
  interceptRequests_listener C
    {| details_url := target; details_requestHeaders := Some hs |} e =
    {| outcome :=
         Ok (Some match cookies_or_empty (accounts (account rule)) with
                  | [] => hs
                  | cs => set_cookie_headers (cookie_header_spec cs (account rule)) hs
                  end);
       after := e;
       calls := [RuleGetAll; AccountFind (account rule);
                 ConsoleInfo "interceptRequests: found an auto switch rule for url"] |}.
Proof.
  intros [Hrules Hfind] -> Hpre Hrule.
  unfold interceptRequests_listener. cbn [details_requestHeaders details_url].
  unfold ruleService_getAll. rewrite (bind_call_ok _ _ _ _ _ _ _ _ Hrules).
  rewrite (bind_run_ok _ _ _ _ _ _ _ _
             (interceptRequests_loop_first_match accounts e target hs rule post
                Hfind Hrule pre Hpre)).
  reflexivity.
Qed.

Lemma nth_error_set_cookie_headers (v : string) (hs : list HttpHeader) (i : nat)
    (h : HttpHeader) :
  nth_error hs i = Some h ->
  nth_error (set_cookie_headers v hs) i =
    Some (if String.eqb (toLowerCase (header_name h)) "cookie"
          then {| header_name := header_name h; header_value := Some v |}
          else h).
Proof.
  intros H. unfold set_cookie_headers. rewrite nth_error_map, H. reflexivity.
Qed.

(** C6. For every request the fallback interceptor handles, the rules
    are tried in declared order and only the first one whose combined
    pattern matches the request URL is applied, whether or not its
    account has cookies: the rule store is read once and only that
    rule's account is looked up.  When its cookie value is non-empty
    every header named [Cookie], in any letter case, gets that value at
    its place while the other headers stay as they are; when it is empty
    the headers stay as they are.  No later rule is applied: the result
    is the same whatever rules follow.  A request with header
    [Cookie: foo=bar] that matches the rule of [alice], whose cookies
    are [s=x], ends with [s=x; __account__=alice]. *)
Theorem interceptRequests_first_match_wins :
  forall (rules : list AutoSwitchRule) (accounts : string -> option Account) (e : Ext)
         (target : string) (hs : list HttpHeader)
         (pre : list AutoSwitchRule) (rule : AutoSwitchRule) (post : list AutoSwitchRule),
    stores_hold C rules accounts e ->
    rules = pre ++ rule :: post ->
    Forall (fun r => matches C r target false) pre ->
    matches C rule target true ->
    let value :=
      cookie_header_spec (cookies_or_empty (accounts (account rule))) (account rule) in
    exists hs',
      interceptRequests_listener C
        {| details_url := target; details_requestHeaders := Some hs |} e =
        {| outcome := Ok (Some hs');
           after := e;
           calls := [RuleGetAll; AccountFind (account rule);
                     ConsoleInfo "interceptRequests: found an auto switch rule for url"] |} /\
      length hs' = length hs /\
      (cookies_or_empty (accounts (account rule)) <> [] ->
       forall i h,
         nth_error hs i = Some h ->
         nth_error hs' i =
           Some (if String.eqb (toLowerCase (header_name h)) "cookie"
                 then {| header_name := header_name h; header_value := Some value |}
                 else h)) /\
      (cookies_or_empty (accounts (account rule)) = [] -> hs' = hs) /\
      (forall (post' : list AutoSwitchRule) (e' : Ext),
         stores_hold C (pre ++ rule :: post') accounts e' ->
         outcome (interceptRequests_listener C
                    {| details_url := target; details_requestHeaders := Some hs |} e')
           = Ok (Some hs')) /\
      (account rule = "alice" ->
       cookies_or_empty (accounts "alice") = [ {| cookie_name := "s"; cookie_value := "x" |} ] ->
       hs = [ {| header_name := "Cookie"; header_value := Some "foo=bar" |} ] ->
       hs' = [ {| header_name := "Cookie";
                  header_value := Some "s=x; __account__=alice" |} ]).
Proof.
  intros rules accounts e target hs pre rule post Hs Hr Hpre Hrule value.
  exists (match cookies_or_empty (accounts (account rule)) with
          | [] => hs
          | _ :: _ => set_cookie_headers value hs
          end).
  rewrite (interceptRequests_listener_first_match rules accounts e target hs pre rule post
             Hs Hr Hpre Hrule).
  subst value.
  split; [now destruct (cookies_or_empty (accounts (account rule)))|].
  split; [|split; [|split; [|split]]].
  - destruct (cookies_or_empty (accounts (account rule))); [reflexivity|].
    unfold set_cookie_headers. apply length_map.
  - intros Hne i h.
    destruct (cookies_or_empty (accounts (account rule))) as [|c cs]; [now destruct Hne|].
    apply nth_error_set_cookie_headers.
  - intros ->. reflexivity.
  - intros post' e' Hs'.
    rewrite (interceptRequests_listener_first_match (pre ++ rule :: post') accounts e'
               target hs pre rule post' Hs' eq_refl Hpre Hrule).
    cbn [outcome]. now destruct (cookies_or_empty (accounts (account rule))).
  - intros Ha Hc ->. rewrite Ha in *. rewrite Hc. reflexivity.
Qed.

(** C3, the fallback path.  When the first rule whose pattern matches
    belongs to an account without stored cookies, the interceptor
    rewrites nothing and stops there: a later rule that also matches and
    whose account has cookies is not applied, while the compiler, on the
    same stores, emits no filter rule for the first and one for the
    later rule. *)
Theorem interceptRequests_empty_account_shadows :
  forall (rules : list AutoSwitchRule) (accounts : string -> option Account) (e : Ext)
         (target : string) (hs : list HttpHeader)
         (pre : list AutoSwitchRule) (rule : AutoSwitchRule)
         (between : list AutoSwitchRule) (later : AutoSwitchRule)
         (post : list AutoSwitchRule),
    stores_hold C rules accounts e ->
    rules = pre ++ rule :: between ++ later :: post ->
    Forall (fun r => matches C r target false) pre ->
    matches C rule target true ->
    cookies_or_empty (accounts (account rule)) = [] ->
    matches C later target true ->
    cookies_or_empty (accounts (account later)) <> [] ->
    outcome (interceptRequests_listener C
               {| details_url := target; details_requestHeaders := Some hs |} e)
      = Ok (Some hs) /\
    exists rs,
      outcome (buildAddRules C e) = Ok rs /\
      (forall cr, In cr rs -> id cr <> (Z.of_nat (length pre) + 1)%Z) /\
      (exists cr,
         In cr rs /\
         id cr = (Z.of_nat (length pre + 1 + length between) + 1)%Z /\
         regexFilter (condition cr) = combined_pattern later).
Proof.
  intros rules accounts e target hs pre rule between later post
         Hs Hr Hpre Hrule Hempty Hlater Hne.
  split.
  - rewrite (interceptRequests_listener_first_match rules accounts e target hs pre rule
               (between ++ later :: post) Hs Hr Hpre Hrule).
    cbn [outcome]. now rewrite Hempty.
  - exists (expected_rules accounts (entries rules)).
    rewrite (buildAddRules_run _ _ _ C _ _ _ Hs). cbn [outcome].
    split; [reflexivity|]. split.
    + intros cr Hin Hid. apply in_expected_rules in Hin.
      destruct Hin as (index & r & Hin & Hcookies & ->). cbn [id] in Hid.
      assert (index = length pre) by lia. subst index.
      apply in_entries in Hin. rewrite Hr in Hin.
      rewrite nth_error_app2 in Hin by lia. rewrite Nat.sub_diag in Hin.
      cbn in Hin. inversion Hin; subst r. now apply Hcookies.
    + eexists. split; [|split].
      * apply in_expected_rules. exists (length pre + 1 + length between), later.
        split; [|split; [exact Hne | reflexivity]].
        apply in_entries. rewrite Hr.
        rewrite nth_error_app2 by lia.
        replace (length pre + 1 + length between - length pre)
          with (S (length between)) by lia.
        cbn [nth_error]. rewrite nth_error_app2 by lia.
        now rewrite Nat.sub_diag.
      * reflexivity.
      * reflexivity.
Qed.

End Interceptor.

(* ------------------------------------------------------------------ *)
(** ** The cookie watcher *)

Section Watcher.

Variables (Ext Value Error : Type) (C : Collaborators Ext Value Error).

Lemma sync_invocations_app (l l' : list Call) :
  sync_invocations (l ++ l') = sync_invocations l + sync_invocations l'.
Proof. unfold sync_invocations. now rewrite filter_app, length_app. Qed.

Lemma badge_updates_app (l l' : list Call) :
  badge_updates (l ++ l') = badge_updates l + badge_updates l'.
Proof. unfold badge_updates. now rewrite filter_app, length_app. Qed.

Lemma not_qualifying_keeps_timers (changeInfo : ChangeInfo) (w : Loop Ext) :
  ~ qualifying changeInfo ->
  timers (watchCookies_listener C changeInfo w) = timers w /\
  syncTimer (watchCookies_listener C changeInfo w) = syncTimer w /\
  nextTimer (watchCookies_listener C changeInfo w) = nextTimer w /\
  now (watchCookies_listener C changeInfo w) = now w.
Proof.
  intros H. unfold watchCookies_listener, qualifying in *.
  destruct (has AUTH_COOKIES (cookie_name (changed_cookie changeInfo))); cbn [negb].
  - destruct (removed changeInfo).
    + destruct (String.eqb _ "dotcom_user"); repeat split.
    + exfalso. apply H. split; reflexivity.
  - repeat split.
Qed.

Lemma qualifying_schedules (changeInfo : ChangeInfo) (w : Loop Ext) :
  qualifying changeInfo ->
  exists what,
    watchCookies_listener C changeInfo w =
      scheduleSync (snd (exec (console_info Error what) w)).
Proof.
  intros [Hhas Hrem]. unfold watchCookies_listener. rewrite Hhas, Hrem. cbn [negb].
  destruct (String.eqb _ "dotcom_user"); eexists; reflexivity.
Qed.

(** What [scheduleSync] leaves: the fresh handle in [syncTimer], its
    timer due in 300 ms, and of the timers pending before all but the
    one [syncTimer] referred to. *)
Lemma scheduleSync_arms (w : Loop Ext) :
  syncTimer (scheduleSync w) = Some (nextTimer w) /\
  timers (scheduleSync w) =
    match syncTimer w with
    | Some t => filter (fun x => negb (Pos.eqb (timer_id x) t)) (timers w)
    | None => timers w
    end ++ [ {| timer_id := nextTimer w; timer_due := now w + 300 |} ] /\
  ext (scheduleSync w) = ext w /\
  log (scheduleSync w) = log w /\
  now (scheduleSync w) = now w.
Proof. unfold scheduleSync. destruct (syncTimer w); repeat split. Qed.

Lemma scheduleSync_one_pending (w : Loop Ext) :
  one_pending w ->
  timers (scheduleSync w) = [ {| timer_id := nextTimer w; timer_due := now w + 300 |} ].
Proof.
  intros H. destruct (scheduleSync_arms w) as (_ & Ht & _). rewrite Ht.
  unfold one_pending in H. destruct (syncTimer w) as [t|].
  - destruct H as [due ->]. cbn [filter timer_id]. now rewrite Pos.eqb_refl.
  - now rewrite H.
Qed.

(** C8. On a notification that the primary identity cookie
    [dotcom_user] was removed, the watcher makes exactly one badge
    update call, arms no timer and cancels none, and invokes no account
    sync. *)
Theorem dotcom_user_removal_updates_badge_only :
  forall (changeInfo : ChangeInfo) (w : Loop Ext),
    cookie_name (changed_cookie changeInfo) = "dotcom_user" ->
    removed changeInfo = true ->
    let w' := watchCookies_listener C changeInfo w in
    log w' = log w ++ [ConsoleInfo "dotcom_user cookie removed"; SetBadgeText "..."] /\
    badge_updates (log w') = badge_updates (log w) + 1 /\
    sync_invocations (log w') = sync_invocations (log w) /\
    timers w' = timers w /\
    syncTimer w' = syncTimer w /\
    nextTimer w' = nextTimer w.
Proof.
  intros changeInfo w Hname Hrem w'. subst w'.
  unfold watchCookies_listener. rewrite Hname, Hrem. cbn [has AUTH_COOKIES existsb].
  cbn [String.eqb Ascii.eqb Bool.eqb orb negb andb]. 
  assert (Hlog : log (snd (exec (bind (console_info Error "dotcom_user cookie removed")
                                  (fun _ => setBadgeText C "...")) w))
                 = log w ++ [ConsoleInfo "dotcom_user cookie removed"; SetBadgeText "..."]).
  { unfold exec, bind, console_info, setBadgeText, call. cbn [outcome after calls snd log].
    destruct (co_setBadgeText C "..." (ext w)); reflexivity. }
  split; [exact Hlog|].
  rewrite Hlog, badge_updates_app, sync_invocations_app.
  repeat split. cbn. lia.
Qed.

(** Calls that are not the first read of [syncAccounts]. *)
Lemma silent_bind {A B} (m : M Ext Error A) (f : A -> M Ext Error B) :
  (forall e, filter is_sync_start (calls (m e)) = []) ->
  (forall a e, filter is_sync_start (calls (f a e)) = []) ->
  forall e, filter is_sync_start (calls (bind m f e)) = [].
Proof.
  intros Hm Hf e. rewrite calls_bind, filter_app, Hm.
  destruct (outcome (m e)); [apply Hf | reflexivity].
Qed.

Lemma silent_call {A} (c : Call) (op : Op Ext Error A) :
  is_sync_start c = false ->
  forall e, filter is_sync_start (calls (call c op e)) = [].
Proof. intros H e. unfold call. destruct (op e). cbn [calls filter]. now rewrite H. Qed.

Lemma silent_call_dropped {A} (c : Call) (op : Op Ext Error A) :
  is_sync_start c = false ->
  forall e, filter is_sync_start (calls (call_dropped c op e)) = [].
Proof.
  intros H e. unfold call_dropped. destruct (op e). cbn [calls filter]. now rewrite H.
Qed.

Lemma silent_compiler_calls (cs : list Call) :
  forallb is_compiler_call cs = true -> filter is_sync_start cs = [].
Proof.
  induction cs as [|c cs IH]; [reflexivity|]. cbn [forallb filter].
  intros H. apply andb_prop in H. destruct H as [Hc Hcs].
  destruct c; try discriminate Hc; cbn [is_sync_start]; now apply IH.
Qed.

Lemma silent_updateDynamicRequestRules (e : Ext) :
  filter is_sync_start (calls (updateDynamicRequestRules C e)) = [].
Proof.
  unfold updateDynamicRequestRules. destruct (co_declarativeNetRequest C); cbn [negb].
  2:{ reflexivity. }
  revert e. apply silent_bind; [now apply silent_call|]. intros existing.
  apply silent_bind.
  { intros e. apply silent_compiler_calls, buildAddRules_calls. }
  intros compiled. apply silent_bind; [now apply silent_call|]. intros _.
  apply silent_bind; [now apply silent_call|]. intros _ e. reflexivity.
Qed.

(** Every invocation of [syncAccounts] reads [dotcom_user] once. *)
Lemma syncAccounts_reads_once (e : Ext) :
  sync_invocations (calls (syncAccounts C e)) = 1.
Proof.
  unfold sync_invocations, syncAccounts. unfold cookie_get at 1.
  rewrite calls_bind_call.
  assert (Hlen : forall l : list Call,
            filter is_sync_start l = [] ->
            length (filter is_sync_start (CookieGet "dotcom_user" :: l)) = 1).
  { intros l Hl. cbn [filter is_sync_start]. cbn [String.eqb Ascii.eqb Bool.eqb andb].
    cbn [length]. now rewrite Hl. }
  apply Hlen. clear Hlen.
  destruct (co_cookie_get C "dotcom_user" e) as [[usernameCookie|x] e1]; [|reflexivity].
  clear e. revert e1.
  apply silent_bind; [now apply silent_call|]. intros sessionCookie.
  destruct usernameCookie as [u|]; [|intros; reflexivity].
  destruct sessionCookie as [s0|]; [|intros; reflexivity].
  destruct (String.eqb (cookie_value u) ""); [intros; reflexivity|].
  apply silent_bind; [now apply silent_call|]. intros all.
  apply silent_bind; [now apply silent_call|]. intros _.
  apply silent_bind; [now apply silent_call|]. intros accounts.
  apply silent_bind; [intros; reflexivity|]. intros _.
  apply silent_bind; [apply silent_updateDynamicRequestRules|]. intros _.
  apply silent_bind; [now apply silent_call|]. intros res.
  apply silent_bind.
  - destruct (Z.eqb (status res) 200); [now apply silent_call_dropped | intros; reflexivity].
  - intros _. now apply silent_call.
Qed.

Lemma debounced_sync_once (e : Ext) :
  sync_invocations (calls (debounced_sync C e)) = 1.
Proof.
  unfold debounced_sync, try_catch.
  destruct (outcome (syncAccounts C e)).
  - apply syncAccounts_reads_once.
  - cbn [calls console_warn]. rewrite sync_invocations_app, syncAccounts_reads_once.
    reflexivity.
Qed.

(** The timer callback: one debounced sync on the collaborator state of
    the moment, and [syncTimer] cleared; timers and clock as they
    were. *)
Lemma syncTimer_callback_runs (w : Loop Ext) :
  ext (syncTimer_callback C w) = after (debounced_sync C (ext w)) /\
  log (syncTimer_callback C w) = log w ++ calls (debounced_sync C (ext w)) /\
  syncTimer (syncTimer_callback C w) = None /\
  timers (syncTimer_callback C w) = timers w /\
  now (syncTimer_callback C w) = now w /\
  nextTimer (syncTimer_callback C w) = nextTimer w.
Proof. repeat split. Qed.

(** Time passing with no timer due changes the clock only. *)
Lemma elapse_waits (dt : N) (w : Loop Ext) :
  forallb (fun x => negb (is_due (now w + dt) x)) (timers w) = true ->
  elapse C dt w =
    {| ext := ext w; log := log w; syncTimer := syncTimer w; timers := timers w;
       now := now w + dt; nextTimer := nextTimer w |}.
Proof.
  intros H. unfold elapse.
  rewrite (filter_all _ _ H), (filter_none _ _ H). reflexivity.
Qed.

(** Time passing beyond the due time of the one pending timer runs its
    callback once. *)
Lemma elapse_fires (dt : N) (w : Loop Ext) (t : positive) (due : N) :
  timers w = [ {| timer_id := t; timer_due := due |} ] ->
  (due <= now w + dt)%N ->
  elapse C dt w =
    syncTimer_callback C
      {| ext := ext w; log := log w; syncTimer := syncTimer w; timers := [];
         now := now w + dt; nextTimer := nextTimer w |}.
Proof.
  intros Ht Hdue. unfold elapse. rewrite Ht. cbn [filter].
  unfold is_due. cbn [timer_due].
  apply N.leb_le in Hdue. rewrite Hdue. reflexivity.
Qed.

Lemma one_pending_step (w : Loop Ext) (ev : Event Ext Error) :
  one_pending w -> one_pending (step C w ev).
Proof.
  intros H. destruct ev as [changeInfo|dt|m|f]; cbn [step].
  - destruct (has AUTH_COOKIES (cookie_name (changed_cookie changeInfo))) eqn:Hhas.
    + destruct (removed changeInfo) eqn:Hrem.
      * destruct (not_qualifying_keeps_timers changeInfo w) as (Ht & Hs & _).
        { intros [_ Hq]. congruence. }
        unfold one_pending. now rewrite Ht, Hs.
      * destruct (qualifying_schedules changeInfo w (conj Hhas Hrem)) as [what ->].
        unfold one_pending.
        rewrite (proj1 (scheduleSync_arms _)),
          (scheduleSync_one_pending (snd (exec (console_info Error what) w)) H).
        eexists. reflexivity.
    + destruct (not_qualifying_keeps_timers changeInfo w) as (Ht & Hs & _).
      { intros [Hq _]. congruence. }
      unfold one_pending. now rewrite Ht, Hs.
  - unfold one_pending in H. destruct (syncTimer w) as [t|] eqn:Hs.
    + destruct H as [due Ht].
      destruct (N.leb due (now w + dt)) eqn:Hd.
      * apply N.leb_le in Hd. rewrite (elapse_fires dt w t due Ht Hd). reflexivity.
      * rewrite elapse_waits.
        -- unfold one_pending. cbn [syncTimer timers]. rewrite Hs. now exists due.
        -- rewrite Ht. cbn [forallb]. unfold is_due. cbn [timer_due]. now rewrite Hd.
    + rewrite elapse_waits.
      * unfold one_pending. cbn [syncTimer timers]. now rewrite Hs.
      * now rewrite H.
  - exact H.
  - exact H.
Qed.

Lemma one_pending_steps (evs : list (Event Ext Error)) :
  forall w, one_pending w -> one_pending (steps C w evs).
Proof.
  induction evs as [|ev evs IH]; intros w H; [exact H|].
  apply IH. now apply one_pending_step.
Qed.

Lemma one_pending_at_most_one (w : Loop Ext) : one_pending w -> length (timers w) <= 1.
Proof.
  unfold one_pending. destruct (syncTimer w).
  - intros [due ->]. cbn. lia.
  - intros ->. cbn. lia.
Qed.

Lemma qualifying_event_arms (changeInfo : ChangeInfo) (w : Loop Ext) :
  one_pending w ->
  qualifying changeInfo ->
  syncTimer (watchCookies_listener C changeInfo w) = Some (nextTimer w) /\
  timers (watchCookies_listener C changeInfo w) =
    [ {| timer_id := nextTimer w; timer_due := now w + 300 |} ] /\
  ext (watchCookies_listener C changeInfo w) = ext w /\
  now (watchCookies_listener C changeInfo w) = now w /\
  sync_invocations (log (watchCookies_listener C changeInfo w)) = sync_invocations (log w).
Proof.
  intros Hone Hq. destruct (qualifying_schedules changeInfo w Hq) as [what ->].
  destruct (scheduleSync_arms (snd (exec (console_info Error what) w)))
    as (Hs & _ & He & Hl & Hn).
  rewrite Hs, He, Hl, Hn.
  rewrite (scheduleSync_one_pending (snd (exec (console_info Error what) w)) Hone).
  repeat split. cbn [exec snd log console_info calls].
  rewrite sync_invocations_app. cbn. lia.
Qed.

(** A burst on a loop whose timer has just been armed: at each further
    notification the timer is armed anew before it comes due, so no sync
    runs and the timer is due 300 ms after the last notification. *)
Lemma burst_keeps_rearming (b : list (N * (Ext -> Ext) * ChangeInfo)) :
  forall (w : Loop Ext) (t : positive),
    syncTimer w = Some t ->
    timers w = [ {| timer_id := t; timer_due := now w + 300 |} ] ->
    Forall (fun x => (fst (fst x) < 300)%N /\ qualifying (snd x)) b ->
    exists t',
      syncTimer (steps C w (burst_events b)) = Some t' /\
      timers (steps C w (burst_events b)) =
        [ {| timer_id := t'; timer_due := now (steps C w (burst_events b)) + 300 |} ] /\
      sync_invocations (log (steps C w (burst_events b))) = sync_invocations (log w) /\
      ext (steps C w (burst_events b)) =
        fold_left (fun e f => f e) (map (fun x => snd (fst x)) b) (ext w).
Proof.
  induction b as [|[[gap f] changeInfo] b IH]; intros w t Hs Ht Hall.
  - exists t. cbn. repeat split; assumption.
  - inversion Hall as [|? ? [Hgap Hq] Hall']; subst. cbn [fst snd] in Hgap, Hq.
    cbn [burst_events flat_map app steps fold_left step].
    fold (burst_events (Error:=Error) b).
    rewrite elapse_waits.
    2:{ rewrite Ht. cbn [forallb]. unfold is_due. cbn [timer_due].
        assert (Hlt : (now w + gap < now w + 300)%N) by lia.
        apply N.leb_gt in Hlt. now rewrite Hlt. }
    set (wb := set_ext _ _).
    assert (Hone : one_pending wb).
    { unfold one_pending. subst wb. cbn [set_ext syncTimer timers]. rewrite Hs.
      eexists. exact Ht. }
    destruct (qualifying_event_arms changeInfo wb Hone Hq) as (Hs' & Ht' & He' & Hn' & Hc').
    change (fold_left (step C) (burst_events b) (watchCookies_listener C changeInfo wb))
      with (steps C (watchCookies_listener C changeInfo wb) (burst_events b)).
    destruct (IH (watchCookies_listener C changeInfo wb) (nextTimer wb) Hs') as (t' & H1 & H2 & H3 & H4).
    + rewrite Ht', Hn'. reflexivity.
    + exact Hall'.
    + exists t'. split; [exact H1|]. split; [exact H2|]. split.
      * rewrite H3, Hc'. reflexivity.
      * rewrite H4, He'. reflexivity.
Qed.

(** C4, as the code has it.  A notification that an allow-listed cookie
    other than [dotcom_user] was removed is ignored: the watcher calls
    nothing and the loop, its timers included, stays as it was; no
    removal arms or cancels a timer.  The 300 ms debounce timer is armed,
    the pending one cancelled, by a notification that an allow-listed
    cookie was set or updated, and the account sync runs once that timer
    comes due. *)
Theorem removal_never_arms_the_timer :
  (forall (changeInfo : ChangeInfo) (w : Loop Ext),
     has AUTH_COOKIES (cookie_name (changed_cookie changeInfo)) = true ->
     cookie_name (changed_cookie changeInfo) <> "dotcom_user" ->
     removed changeInfo = true ->
     watchCookies_listener C changeInfo w = w) /\
  (forall (changeInfo : ChangeInfo) (w : Loop Ext),
     removed changeInfo = true ->
     timers (watchCookies_listener C changeInfo w) = timers w /\
     syncTimer (watchCookies_listener C changeInfo w) = syncTimer w) /\
  (forall (changeInfo : ChangeInfo) (w : Loop Ext),
     qualifying changeInfo ->
     one_pending w ->
     let w' := watchCookies_listener C changeInfo w in
     syncTimer w' = Some (nextTimer w) /\
     timers w' = [ {| timer_id := nextTimer w; timer_due := now w + 300 |} ] /\
     sync_invocations (log (elapse C 300 w')) = sync_invocations (log w) + 1).
Proof.
  split; [|split].
  - intros changeInfo w Hhas Hname Hrem. unfold watchCookies_listener.
    rewrite Hhas, Hrem. cbn [negb]. apply String.eqb_neq in Hname. now rewrite Hname.
  - intros changeInfo w Hrem.
    destruct (not_qualifying_keeps_timers changeInfo w) as (Ht & Hs & _).
    { intros [_ Hq]. congruence. }
    now split.
  - intros changeInfo w Hq Hone w'. subst w'.
    destruct (qualifying_event_arms changeInfo w Hone Hq) as (Hs & Ht & He & Hn & Hc).
    split; [exact Hs|]. split; [exact Ht|].
    rewrite (elapse_fires 300 _ _ _ Ht) by (rewrite Hn; lia).
    rewrite (proj1 (proj2 (syncTimer_callback_runs _))). cbn [log ext].
    rewrite sync_invocations_app, debounced_sync_once, Hc. reflexivity.
Qed.

(** C5. At every point of every run of the loop from startup at most
    one debounce timer is pending, the one [syncTimer] refers to.  A
    burst of notifications of allow-listed cookies set or updated, each
    less than 300 ms after the one before, invokes no account sync while
    it lasts and exactly one once 300 ms have passed after the last of
    them; that sync runs on the collaborator state, the cookie store
    included, as it is when the timer fires: after the whole burst and
    after what the outside changed since. *)
Theorem debounce_single_sync :
  (forall (e : Ext) (evs : list (Event Ext Error)),
     one_pending (steps C (startup e) evs) /\
     length (timers (steps C (startup e) evs)) <= 1) /\
  (forall (w : Loop Ext) (f0 : Ext -> Ext) (changeInfo0 : ChangeInfo)
          (b : list (N * (Ext -> Ext) * ChangeInfo)) (g : Ext -> Ext) (d : N),
     one_pending w ->
     qualifying changeInfo0 ->
     Forall (fun x => (fst (fst x) < 300)%N /\ qualifying (snd x)) b ->
     (300 <= d)%N ->
     let w1 := steps C w (Outside f0 :: CookieChanged changeInfo0 :: burst_events b) in
     let w2 := steps C w1 [Outside g; Elapse d] in
     sync_invocations (log w1) = sync_invocations (log w) /\
     sync_invocations (log w2) = sync_invocations (log w) + 1 /\
     ext w1 = fold_left (fun e f => f e) (f0 :: map (fun x => snd (fst x)) b) (ext w) /\
     log w2 = log w1 ++ calls (debounced_sync C (g (ext w1))) /\
     ext w2 = after (debounced_sync C (g (ext w1))) /\
     timers w2 = [] /\
     syncTimer w2 = None).
Proof.
  split.
  - intros e evs.
    assert (H : one_pending (steps C (startup e) evs)).
    { apply one_pending_steps. reflexivity. }
    split; [exact H | now apply one_pending_at_most_one].
  - intros w f0 changeInfo0 b g d Hone Hq Hall Hd w1 w2.
    set (wa := set_ext (f0 (ext w)) w).
    assert (Ha : one_pending wa) by exact Hone.
    destruct (qualifying_event_arms changeInfo0 wa Ha Hq) as (Hs & Ht & He & Hn & Hc).
    destruct (burst_keeps_rearming b (watchCookies_listener C changeInfo0 wa)
                (nextTimer wa) Hs) as (t' & H1 & H2 & H3 & H4).
    { rewrite Ht, Hn. reflexivity. }
    { exact Hall. }
    change (steps C (watchCookies_listener C changeInfo0 wa) (burst_events b))
      with w1 in H1, H2, H3, H4.
    assert (Hw2 : w2 = syncTimer_callback C
                         {| ext := g (ext w1); log := log w1; syncTimer := syncTimer w1;
                            timers := []; now := now w1 + d; nextTimer := nextTimer w1 |}).
    { subst w2. cbn [steps fold_left step].
      apply (elapse_fires d (set_ext (g (ext w1)) w1) t' _ H2). cbn [set_ext now]. lia. }
    split; [rewrite H3, Hc; reflexivity|].
    split.
    { rewrite Hw2, (proj1 (proj2 (syncTimer_callback_runs _))). cbn [log ext].
      rewrite sync_invocations_app, debounced_sync_once, H3, Hc. reflexivity. }
    split; [rewrite H4, He; reflexivity|].
    rewrite Hw2. repeat split.
Qed.

End Watcher.

(* ------------------------------------------------------------------ *)
(** ** The script on the in-memory collaborators *)

Lemma mem_stores_hold (engine : bool) (s : Mem.State) :
  stores_hold (Mem.make engine) (Mem.rules s) (fun n => Mem.find_account n s) s.
Proof. split; [reflexivity | intros n; reflexivity]. Qed.

Lemma mem_engine_keeps_stores (engine : bool) (rules : list AutoSwitchRule)
    (accounts : string -> option Account) :
  engine_keeps_stores (Mem.make engine) rules accounts.
Proof.
  intros s [Hr Hf]. cbn in Hr. inversion Hr as [Hrules].
  assert (Hfind : forall n, Mem.find_account n s = accounts n).
  { intros n. specialize (Hf n). cbn in Hf. now inversion Hf. }
  split.
  - cbn. split; [cbn; now rewrite Hrules | intros n; cbn; now rewrite <- Hfind].
  - intros o. cbn. split.
    + cbn. now rewrite Hrules.
    + intros n. cbn. unfold Mem.find_account. cbn.
      specialize (Hfind n). unfold Mem.find_account in Hfind. now rewrite Hfind.
Qed.

Lemma mem_matches (engine : bool) (rule : AutoSwitchRule) (target : string) :
  matches (Mem.make engine) rule target
    (Mem.literal_test (combined_pattern rule) target).
Proof. eexists. split; reflexivity. Qed.

(** The header value of [alice] with cookies [a=1] and [b=2]. *)
Lemma buildCookieValue_none_or_header_witness :
  co_account_find Mem.collaborators "alice" Mem.alice_two_cookies
    = (Ok (Mem.find_account "alice" Mem.alice_two_cookies), Mem.alice_two_cookies) /\
  outcome (buildCookieValue Mem.collaborators "alice" Mem.alice_two_cookies)
    = Ok (Some "a=1; b=2; __account__=alice").
Proof.
  split; [reflexivity|].
  refine (proj2 (proj2 (proj2
    (buildCookieValue_none_or_header _ _ _ Mem.collaborators "alice"
       Mem.alice_two_cookies Mem.alice_two_cookies
       (Mem.find_account "alice" Mem.alice_two_cookies) _))) _ _);
    reflexivity.
Defined.

(** The rules of [alice] then [bob] where only [bob] has cookies
    compile to one rule, with id 2. *)
Lemma buildAddRules_emits_witness :
  stores_hold Mem.collaborators (Mem.rules Mem.only_bob_has_cookies)
    (fun n => Mem.find_account n Mem.only_bob_has_cookies) Mem.only_bob_has_cookies /\
  exists cr,
    outcome (buildAddRules Mem.collaborators Mem.only_bob_has_cookies) = Ok [cr] /\
    id cr = 2%Z.
Proof.
  split; [apply mem_stores_hold|].
  destruct (buildAddRules_emits _ _ _ Mem.collaborators
              (Mem.rules Mem.only_bob_has_cookies)
              (fun n => Mem.find_account n Mem.only_bob_has_cookies)
              Mem.only_bob_has_cookies (mem_stores_hold true _))
    as (rs & Hrs & _ & _ & _ & Hex).
  destruct (Hex "github.com/org1" "github.com/org" eq_refl eq_refl) as (cr & Hcr & Hid).
  - discriminate.
  - exists cr. split; [now rewrite Hrs, Hcr | exact Hid].
Defined.

(** Compilation on the same stores, before and after a
    reconciliation. *)
Lemma compilation_deterministic_witness :
  let e := Mem.only_bob_has_cookies in
  let e' := after (updateDynamicRequestRules Mem.collaborators e) in
  e <> e' /\
  outcome (buildAddRules Mem.collaborators e) = outcome (buildAddRules Mem.collaborators e') /\
  forall o,
    In (UpdateDynamicRules o)
       (calls (updateDynamicRequestRules Mem.collaborators e)
          ++ calls (updateDynamicRequestRules Mem.collaborators e')) ->
    Ok (Error:=string) (addRules o) = outcome (buildAddRules Mem.collaborators e).
Proof.
  intros e e'.
  destruct (compilation_deterministic _ _ _ Mem.collaborators
              (Mem.rules e) (fun n => Mem.find_account n e) e e'
              (mem_stores_hold true e) (mem_stores_hold true e'))
    as (rs & H1 & _ & _ & H2 & _ & H3).
  split; [discriminate|]. split; [now rewrite H1, H2|].
  intros o Ho. rewrite H1. f_equal. apply H3; [apply mem_engine_keeps_stores | exact Ho].
Defined.

(** Reconciliation with and without the platform's declarative
    filtering. *)
Lemma updateDynamicRequestRules_reconciles_witness :
  updateDynamicRequestRules Mem.fallback Mem.only_bob_has_cookies
    = {| outcome := Ok tt; after := Mem.only_bob_has_cookies; calls := [] |} /\
  exists compiled,
    outcome (buildAddRules Mem.collaborators Mem.only_bob_has_cookies) = Ok compiled /\
    filter is_update (calls (updateDynamicRequestRules Mem.collaborators
                               Mem.only_bob_has_cookies))
      = [UpdateDynamicRules {| removeRuleIds := [1%Z]; addRules := compiled |}].
Proof.
  split.
  - exact (proj1 (updateDynamicRequestRules_reconciles _ _ _ Mem.fallback) eq_refl
             Mem.only_bob_has_cookies).
  - eexists. split; [reflexivity|].
    exact (proj2 (proj2 (updateDynamicRequestRules_reconciles _ _ _ Mem.collaborators)
                    eq_refl Mem.only_bob_has_cookies _ _ _ _ _ eq_refl eq_refl)).
Defined.

(** The listener on [clearCookies], with a cookie store that clears and
    one that refuses, and the handler on a message of no known kind. *)
Lemma listener_catches_handler_errors_witness :
  let clear := {| msg_type := "clearCookies"; msg_account := "" |} in
  known_kind (msg_type clear) /\
  outcome (listenMessage_listener Mem.collaborators clear Mem.empty)
    = Ok (success_true (D_value tt)) /\
  outcome (listenMessage_listener Mem.collaborators clear Mem.locked_store)
    = Ok (success_false "cookie store locked") /\
  handleMessage Mem.collaborators {| msg_type := "ping"; msg_account := "" |} Mem.empty
    = {| outcome := Ok D_undefined; after := Mem.empty; calls := [] |}.
Proof.
  intros clear.
  assert (K : known_kind (msg_type clear)) by (cbn; tauto).
  split; [exact K|]. split; [|split].
  - rewrite (proj1 (proj1 (listener_catches_handler_errors _ _ _ Mem.collaborators
                             clear Mem.empty) K) (D_value tt) eq_refl).
    reflexivity.
  - rewrite (proj2 (proj1 (listener_catches_handler_errors _ _ _ Mem.collaborators
                             clear Mem.locked_store) K) "cookie store locked" eq_refl).
    reflexivity.
  - apply (proj2 (proj2 (listener_catches_handler_errors _ _ _ Mem.collaborators
                           {| msg_type := "ping"; msg_account := "" |} Mem.empty))).
    cbn. intros H. repeat (destruct H as [H|H]; [discriminate H|]). exact H.
Defined.

(** A request with header [Cookie: foo=bar] that the rules of [alice]
    and of [bob] both match, both accounts having cookies: the rule that
    comes first decides, in either order; and with [alice] first and
    without cookies the header stays as it is. *)
Lemma interceptRequests_first_match_wins_witness :
  let target := "https://github.com/org1/x" in
  let alice := {| account := "alice"; urlPattern := "github.com/org1" |} in
  let bob := {| account := "bob"; urlPattern := "github.com/org" |} in
  let request :=
    {| details_url := target;
       details_requestHeaders :=
         Some [ {| header_name := "Cookie"; header_value := Some "foo=bar" |} ] |} in
  matches Mem.fallback alice target true /\
  matches Mem.fallback bob target true /\
  outcome (interceptRequests_listener Mem.fallback request Mem.alice_then_bob)
    = Ok (Some [ {| header_name := "Cookie";
                    header_value := Some "s=x; __account__=alice" |} ]) /\
  outcome (interceptRequests_listener Mem.fallback request Mem.bob_then_alice)
    = Ok (Some [ {| header_name := "Cookie";
                    header_value := Some "t=y; __account__=bob" |} ]) /\
  outcome (interceptRequests_listener Mem.fallback request Mem.only_bob_has_cookies)
    = Ok (Some [ {| header_name := "Cookie"; header_value := Some "foo=bar" |} ]).
Proof.
  intros target alice bob request.
  assert (Ha : matches Mem.fallback alice target true) by apply (mem_matches false alice target).
  assert (Hb : matches Mem.fallback bob target true) by apply (mem_matches false bob target).
  split; [exact Ha|]. split; [exact Hb|].
  pose (hs := [ {| header_name := "Cookie"; header_value := Some "foo=bar" |} ]).
  destruct (interceptRequests_first_match_wins _ _ _ Mem.fallback
              (Mem.rules Mem.alice_then_bob)
              (fun n => Mem.find_account n Mem.alice_then_bob)
              Mem.alice_then_bob target hs [] alice [bob]
              (mem_stores_hold false _) eq_refl (Forall_nil _) Ha)
    as (hs1 & Hrun1 & _ & _ & _ & _ & Hex1).
  destruct (interceptRequests_first_match_wins _ _ _ Mem.fallback
              (Mem.rules Mem.bob_then_alice)
              (fun n => Mem.find_account n Mem.bob_then_alice)
              Mem.bob_then_alice target hs [] bob [alice]
              (mem_stores_hold false _) eq_refl (Forall_nil _) Hb)
    as (hs2 & Hrun2 & Hlen2 & Hset2 & _).
  destruct (interceptRequests_first_match_wins _ _ _ Mem.fallback
              (Mem.rules Mem.only_bob_has_cookies)
              (fun n => Mem.find_account n Mem.only_bob_has_cookies)
              Mem.only_bob_has_cookies target hs [] alice [bob]
              (mem_stores_hold false _) eq_refl (Forall_nil _) Ha)
    as (hs3 & Hrun3 & _ & _ & Hkeep3 & _).
  split; [|split].
  - unfold request. fold hs. rewrite Hrun1. cbn [outcome].
    now rewrite (Hex1 eq_refl eq_refl eq_refl).
  - unfold request. fold hs. rewrite Hrun2. cbn [outcome].
    assert (H0 : nth_error hs2 0 =
                 Some {| header_name := "Cookie";
                         header_value := Some "t=y; __account__=bob" |}).
    { apply (Hset2 ltac:(discriminate) 0
               {| header_name := "Cookie"; header_value := Some "foo=bar" |} eq_refl). }
    destruct hs2 as [|h [|h' t]]; [discriminate H0 | | discriminate Hlen2].
    cbn in H0. now inversion H0.
  - unfold request. fold hs. rewrite Hrun3. cbn [outcome].
    now rewrite (Hkeep3 eq_refl).
Defined.

(** The rules of [alice] then [bob], both matching the request, where
    only [bob] has cookies: the interceptor leaves the header as it is,
    and the compiler emits the rule of [bob]. *)
Lemma interceptRequests_empty_account_shadows_witness :
  let target := "https://github.com/org1/x" in
  let hs := [ {| header_name := "Cookie"; header_value := Some "foo=bar" |} ] in
  matches Mem.fallback {| account := "alice"; urlPattern := "github.com/org1" |} target true /\
  matches Mem.fallback {| account := "bob"; urlPattern := "github.com/org" |} target true /\
  outcome (interceptRequests_listener Mem.fallback
             {| details_url := target; details_requestHeaders := Some hs |}
             Mem.only_bob_has_cookies)
    = Ok (Some hs) /\
  exists cr,
    outcome (buildAddRules Mem.fallback Mem.only_bob_has_cookies) = Ok [cr] /\
    id cr = 2%Z /\
    regexFilter (condition cr) = "github.com/org|__account__=bob".
Proof.
  intros target hs.
  pose (alice := {| account := "alice"; urlPattern := "github.com/org1" |}).
  pose (bob := {| account := "bob"; urlPattern := "github.com/org" |}).
  assert (Ha : matches Mem.fallback alice target true) by apply (mem_matches false alice target).
  assert (Hb : matches Mem.fallback bob target true) by apply (mem_matches false bob target).
  split; [exact Ha|]. split; [exact Hb|].
  destruct (interceptRequests_empty_account_shadows _ _ _ Mem.fallback
              (Mem.rules Mem.only_bob_has_cookies)
              (fun n => Mem.find_account n Mem.only_bob_has_cookies)
              Mem.only_bob_has_cookies target hs [] alice [] bob []
              (mem_stores_hold false _) eq_refl (Forall_nil _) Ha eq_refl Hb)
    as (Hrun & rs & Hrs & _ & _).
  - discriminate.
  - split; [exact Hrun|]. eexists. repeat split.
Defined.

(** The removal of [dotcom_user] while a timer is pending. *)
Lemma dotcom_user_removal_updates_badge_only_witness :
  let w := watchCookies_listener Mem.collaborators (Mem.cookie_set "_gh_sso")
             (startup Mem.only_bob_has_cookies) in
  let w' := watchCookies_listener Mem.collaborators (Mem.cookie_removed "dotcom_user") w in
  removed (Mem.cookie_removed "dotcom_user") = true /\
  badge_updates (log w') = badge_updates (log w) + 1 /\
  sync_invocations (log w') = sync_invocations (log w) /\
  timers w' = timers w.
Proof.
  intros w w'.
  destruct (dotcom_user_removal_updates_badge_only _ _ _ Mem.collaborators
              (Mem.cookie_removed "dotcom_user") w eq_refl eq_refl)
    as (_ & Hb & Hs & Ht & _).
  split; [reflexivity|]. split; [exact Hb|]. split; [exact Hs | exact Ht].
Defined.

(** After a notification that [user_session] was removed no timer is
    armed: removals of allow-listed cookies do not all arm the timer. *)
Lemma session_cookie_removal_arms_no_timer :
  ~ (forall (changeInfo : ChangeInfo) (w : Loop Mem.State),
       has AUTH_COOKIES (cookie_name (changed_cookie changeInfo)) = true ->
       cookie_name (changed_cookie changeInfo) <> "dotcom_user" ->
       removed changeInfo = true ->
       exists t,
         syncTimer (watchCookies_listener Mem.collaborators changeInfo w) = Some t /\
         In {| timer_id := t; timer_due := now w + 300 |}
            (timers (watchCookies_listener Mem.collaborators changeInfo w))).
Proof.
  intros H.
  destruct (H (Mem.cookie_removed "user_session") (startup Mem.only_bob_has_cookies)
              eq_refl) as (t & Hs & _).
  - discriminate.
  - reflexivity.
  - discriminate Hs.
Defined.

(** The watcher on [user_session] removed, and on [user_session]
    set. *)
Lemma removal_never_arms_the_timer_witness :
  let w := startup Mem.only_bob_has_cookies in
  watchCookies_listener Mem.collaborators (Mem.cookie_removed "user_session") w = w /\
  qualifying (Mem.cookie_set "user_session") /\
  one_pending w /\
  timers (watchCookies_listener Mem.collaborators (Mem.cookie_set "user_session") w)
    = [ {| timer_id := 1; timer_due := 300 |} ] /\
  sync_invocations
    (log (elapse Mem.collaborators 300
            (watchCookies_listener Mem.collaborators (Mem.cookie_set "user_session") w)))
    = 1.
Proof.
  intros w.
  pose proof (removal_never_arms_the_timer _ _ _ Mem.collaborators) as (H1 & _ & H3).
  assert (Hq : qualifying (Mem.cookie_set "user_session")) by (split; reflexivity).
  assert (Hone : one_pending w) by reflexivity.
  split.
  - apply H1; [reflexivity | discriminate | reflexivity].
  - split; [exact Hq|]. split; [exact Hone|].
    destruct (H3 (Mem.cookie_set "user_session") w Hq Hone) as (_ & Ht & Hs).
    split; [exact Ht | exact Hs].
Defined.

(** Five notifications 50 ms apart, each after the outside stored the
    cookie, then one more change of the jar and 300 ms of quiet: one
    sync, run on the jar as it is when the timer fires. *)
Lemma debounce_single_sync_witness :
  let w := startup Mem.only_bob_has_cookies in
  let b := [ (50%N, Mem.store_cookie "user_session" "s2", Mem.cookie_set "user_session");
             (50%N, Mem.store_cookie "_gh_sso" "sso", Mem.cookie_set "_gh_sso");
             (50%N, Mem.store_cookie "logged_in" "yes", Mem.cookie_set "logged_in");
             (50%N, Mem.store_cookie "dotcom_user" "carol", Mem.cookie_set "dotcom_user") ] in
  let w1 := steps Mem.collaborators w
              (Outside (Mem.store_cookie "logged_in" "no")
                 :: CookieChanged (Mem.cookie_set "logged_in") :: burst_events b) in
  let g := Mem.store_cookie "unrelated" "late" in
  let w2 := steps Mem.collaborators w1 [Outside g; Elapse 300] in
  Forall (fun x => (fst (fst x) < 300)%N /\ qualifying (snd x)) b /\
  sync_invocations (log w1) = 0 /\
  sync_invocations (log w2) = 1 /\
  In (AccountUpsert "carol" (Mem.jar (g (ext w1)))) (log w2) /\
  timers w2 = [].
Proof.
  intros w b w1 g w2.
  assert (Hall : Forall (fun x => (fst (fst x) < 300)%N /\ qualifying (snd x)) b).
  { repeat constructor. }
  destruct (proj2 (debounce_single_sync _ _ _ Mem.collaborators)
              w (Mem.store_cookie "logged_in" "no") (Mem.cookie_set "logged_in") b g 300%N)
    as (H1 & H2 & _ & H4 & _ & H6 & _).
  - reflexivity.
  - split; reflexivity.
  - exact Hall.
  - discriminate.
  - split; [exact Hall|]. split; [exact H1|]. split; [exact H2|]. split; [|exact H6].
    fold w1 w2 in H4. rewrite H4. apply in_or_app. right. vm_compute. tauto.
Defined.

(* ------------------------------------------------------------------ *)
(** ** Account sync and startup *)

Section Sync.

Variables (Ext Value Error : Type) (C : Collaborators Ext Value Error).

Lemma slice0_length (n : nat) (s : string) : String.length (slice0 n s) <= n.
Proof.
  unfold slice0. revert s. induction n as [|n IH]; intros s.
  - destruct s; cbn; lia.
  - destruct s as [|c s]; cbn; [lia|]. specialize (IH s). lia.
Qed.

(** X1. Without a [dotcom_user] cookie, without a [user_session]
    cookie, or with an empty [dotcom_user] value, [syncAccounts] reads
    the two cookies and does nothing else: no snapshot, no upsert, no
    reconciliation, no network, no badge. *)
Theorem syncAccounts_needs_identity :
  forall (e e1 e2 : Ext) (usernameCookie sessionCookie : option Cookie),
    co_cookie_get C "dotcom_user" e = (Ok usernameCookie, e1) ->
    co_cookie_get C "user_session" e1 = (Ok sessionCookie, e2) ->
    usernameCookie = None \/ sessionCookie = None \/
      (exists c, usernameCookie = Some c /\ cookie_value c = "") ->
    syncAccounts C e =
      {| outcome := Ok tt; after := e2;
         calls := [CookieGet "dotcom_user"; CookieGet "user_session"] |}.
Proof.
  intros e e1 e2 u s H1 H2 H. unfold syncAccounts, cookie_get.
  rewrite (bind_call_ok _ _ _ _ _ _ _ _ H1), (bind_call_ok _ _ _ _ _ _ _ _ H2).
  destruct H as [-> | [-> | (c & -> & Hc)]].
  - reflexivity.
  - destruct u; reflexivity.
  - destruct s; [|reflexivity]. now rewrite Hc.
Qed.

(** The part of [syncAccounts] up to the avatar request, when every
    collaborator answers. *)
Lemma syncAccounts_until_fetch (e e1 e2 e3 e4 e5 e6 : Ext) (u s : Cookie)
    (jar : list Cookie) (all : list Account) (cs : list Call) :
  co_cookie_get C "dotcom_user" e = (Ok (Some u), e1) ->
  co_cookie_get C "user_session" e1 = (Ok (Some s), e2) ->
  cookie_value u <> "" ->
  co_cookie_getAll C e2 = (Ok jar, e3) ->
  co_account_upsert C (cookie_value u) jar e3 = (Ok tt, e4) ->
  co_account_getAll C e4 = (Ok all, e5) ->
  updateDynamicRequestRules C e5 = {| outcome := Ok tt; after := e6; calls := cs |} ->
  forall r,
    r = bind (fetch C ("https://github.com/" ++ cookie_value u ++ ".png?size=100")%string)
          (fun res =>
             bind (if Z.eqb (status res) 200
                   then accountService_saveAvatar_dropped C (cookie_value u) (url res)
                   else ret Error tt)
               (fun _ => setBadgeText C (slice0 2 (cookie_value u)))) e6 ->
    syncAccounts C e =
      {| outcome := outcome r; after := after r;
         calls := [CookieGet "dotcom_user"; CookieGet "user_session"; CookieGetAll;
                   AccountUpsert (cookie_value u) jar; AccountGetAll;
                   ConsoleInfo "synced accounts"] ++ cs ++ calls r |}.
Proof.
  intros H1 H2 Hne H3 H4 H5 H6 r ->. unfold syncAccounts, cookie_get.
  rewrite (bind_call_ok _ _ _ _ _ _ _ _ H1), (bind_call_ok _ _ _ _ _ _ _ _ H2).
  apply String.eqb_neq in Hne. rewrite Hne.
  unfold cookie_getAll, accountService_upsert, accountService_getAll.
  rewrite (bind_call_ok _ _ _ _ _ _ _ _ H3), (bind_call_ok _ _ _ _ _ _ _ _ H4),
    (bind_call_ok _ _ _ _ _ _ _ _ H5).
  rewrite (bind_run_ok _ _ (console_info Error "synced accounts") _ e5 e5 tt
             [ConsoleInfo "synced accounts"] eq_refl).
  rewrite (bind_run_ok _ _ _ _ _ _ _ _ H6). cbn [outcome after calls app].
  reflexivity.
Qed.

(** X2. With both identity cookies and every collaborator answering,
    [syncAccounts] stores the whole cookie jar under the [dotcom_user]
    value before it reconciles the filter rules, asks for the avatar
    after that, saves the avatar only on status 200 and sets the badge
    last, to the first two characters of the name; a failing badge is
    the only failure left. *)
Theorem syncAccounts_order :
  forall (e e1 e2 e3 e4 e5 e6 e7 : Ext) (u s : Cookie)
         (jar : list Cookie) (all : list Account) (cs : list Call) (res : FetchResponse),
    co_cookie_get C "dotcom_user" e = (Ok (Some u), e1) ->
    co_cookie_get C "user_session" e1 = (Ok (Some s), e2) ->
    cookie_value u <> "" ->
    co_cookie_getAll C e2 = (Ok jar, e3) ->
    co_account_upsert C (cookie_value u) jar e3 = (Ok tt, e4) ->
    co_account_getAll C e4 = (Ok all, e5) ->
    updateDynamicRequestRules C e5 = {| outcome := Ok tt; after := e6; calls := cs |} ->
    co_fetch C ("https://github.com/" ++ cookie_value u ++ ".png?size=100")%string e6
      = (Ok res, e7) ->
    calls (syncAccounts C e) =
      [CookieGet "dotcom_user"; CookieGet "user_session"; CookieGetAll;
       AccountUpsert (cookie_value u) jar; AccountGetAll; ConsoleInfo "synced accounts"]
      ++ cs
      ++ [Fetch ("https://github.com/" ++ cookie_value u ++ ".png?size=100")%string]
      ++ (if Z.eqb (status res) 200
          then [AccountSaveAvatar (cookie_value u) (url res)] else [])
      ++ [SetBadgeText (slice0 2 (cookie_value u))] /\
    String.length (slice0 2 (cookie_value u)) <= 2 /\
    outcome (syncAccounts C e) =
      fst (co_setBadgeText C (slice0 2 (cookie_value u))
             (if Z.eqb (status res) 200
              then snd (co_account_saveAvatar C (cookie_value u) (url res) e7)
              else e7)).
Proof.
  intros e e1 e2 e3 e4 e5 e6 e7 u s jar all cs res H1 H2 Hne H3 H4 H5 H6 H7.
  rewrite (syncAccounts_until_fetch e e1 e2 e3 e4 e5 e6 u s jar all cs
             H1 H2 Hne H3 H4 H5 H6 _ eq_refl).
  cbn [outcome calls]. unfold fetch. rewrite (bind_call_ok _ _ _ _ _ _ _ _ H7).
  cbn [outcome calls].
  split; [|split; [apply slice0_length|]].
  - do 2 f_equal. cbn [app]. f_equal.
    destruct (Z.eqb (status res) 200).
    + unfold bind, accountService_saveAvatar_dropped, call_dropped, setBadgeText, call.
      destruct (co_account_saveAvatar C (cookie_value u) (url res) e7) as [o e8].
      cbn [outcome after calls].
      destruct (co_setBadgeText C (slice0 2 (cookie_value u)) e8); reflexivity.
    + unfold bind, ret, setBadgeText, call. cbn [outcome after calls].
      destruct (co_setBadgeText C (slice0 2 (cookie_value u)) e7); reflexivity.
  - destruct (Z.eqb (status res) 200).
    + unfold bind, accountService_saveAvatar_dropped, call_dropped, setBadgeText, call.
      destruct (co_account_saveAvatar C (cookie_value u) (url res) e7) as [o e8].
      cbn [outcome after calls snd].
      destruct (co_setBadgeText C (slice0 2 (cookie_value u)) e8); reflexivity.
    + unfold bind, ret, setBadgeText, call. cbn [outcome after calls].
      destruct (co_setBadgeText C (slice0 2 (cookie_value u)) e7); reflexivity.
Qed.

(** X3. When the avatar request throws, [syncAccounts] throws that
    error after the account has been stored and the rules reconciled,
    and the badge is not set. *)
Theorem syncAccounts_network_failure :
  forall (e e1 e2 e3 e4 e5 e6 e7 : Ext) (u s : Cookie)
         (jar : list Cookie) (all : list Account) (cs : list Call) (x : Error),
    co_cookie_get C "dotcom_user" e = (Ok (Some u), e1) ->
    co_cookie_get C "user_session" e1 = (Ok (Some s), e2) ->
    cookie_value u <> "" ->
    co_cookie_getAll C e2 = (Ok jar, e3) ->
    co_account_upsert C (cookie_value u) jar e3 = (Ok tt, e4) ->
    co_account_getAll C e4 = (Ok all, e5) ->
    updateDynamicRequestRules C e5 = {| outcome := Ok tt; after := e6; calls := cs |} ->
    co_fetch C ("https://github.com/" ++ cookie_value u ++ ".png?size=100")%string e6
      = (Throw x, e7) ->
    syncAccounts C e =
      {| outcome := Throw x; after := e7;
         calls :=
           [CookieGet "dotcom_user"; CookieGet "user_session"; CookieGetAll;
            AccountUpsert (cookie_value u) jar; AccountGetAll; ConsoleInfo "synced accounts"]
           ++ cs
           ++ [Fetch ("https://github.com/" ++ cookie_value u ++ ".png?size=100")%string] |} /\
    filter is_badge (calls (syncAccounts C e)) = filter is_badge cs.
Proof.
  intros e e1 e2 e3 e4 e5 e6 e7 u s jar all cs x H1 H2 Hne H3 H4 H5 H6 H7.
  rewrite (syncAccounts_until_fetch e e1 e2 e3 e4 e5 e6 u s jar all cs
             H1 H2 Hne H3 H4 H5 H6 _ eq_refl).
  unfold fetch. rewrite (bind_call_throw _ _ _ _ _ _ _ _ H7). cbn [outcome after calls].
  split; [reflexivity|].
  cbn [app filter is_badge]. rewrite filter_app. cbn [filter is_badge].
  now rewrite app_nil_r.
Qed.

(** X4. [init] registers its listeners only after the first
    [syncAccounts] has returned: when that sync throws, the error is
    [init]'s and no listener is registered.  Otherwise the navigation,
    cookie and message listeners are registered, and the fallback
    interceptor exactly when the platform has no declarative filtering,
    that is, exactly when reconciliation does nothing. *)
Theorem init_registers_after_sync :
  (forall e x,
     outcome (syncAccounts C e) = Throw x ->
     init C e = (syncAccounts C e, [])) /\
  (forall e,
     outcome (syncAccounts C e) = Ok tt ->
     fst (init C e) = syncAccounts C e /\
     (forall h, h <> OnBeforeSendHeaders -> In h (snd (init C e))) /\
     (In OnBeforeSendHeaders (snd (init C e)) <->
      forall e', updateDynamicRequestRules C e' =
                   {| outcome := Ok tt; after := e'; calls := [] |})).
Proof.
  split.
  - intros e x H. unfold init. now rewrite H.
  - intros e H. unfold init. rewrite H. cbn [fst snd].
    split; [reflexivity|]. split.
    + intros h Hh. destruct h; cbn; tauto.
    + unfold updateDynamicRequestRules.
      destruct (co_declarativeNetRequest C); cbn [negb app In]; split.
      * intros [H1|[H1|[H1|[]]]]; discriminate H1.
      * intros Hno. specialize (Hno e).
        apply (f_equal (@calls _ _ _)) in Hno.
        unfold getDynamicRules in Hno. rewrite calls_bind_call in Hno.
        discriminate Hno.
      * intros _ e'. reflexivity.
      * intros _. tauto.
Qed.

End Sync.

(* ------------------------------------------------------------------ *)
(** ** More on compilation and reconciliation *)

Section Reconciling.

Variables (Ext Value Error : Type) (C : Collaborators Ext Value Error).

(** X5. Whatever the collaborators do, one reconciliation issues at
    most one update to the filtering engine, and none when it cannot
    read the installed rules or when the compilation throws: the
    installed rules are then left as they are and the error is the
    caller's. *)
Theorem updateDynamicRequestRules_all_or_nothing :
  (forall e, length (filter is_update (calls (updateDynamicRequestRules C e))) <= 1) /\
  (forall e e1 x,
     co_declarativeNetRequest C = true ->
     co_getDynamicRules C e = (Throw x, e1) ->
     updateDynamicRequestRules C e =
       {| outcome := Throw x; after := e1; calls := [GetDynamicRules] |}) /\
  (forall e e1 existing x,
     co_declarativeNetRequest C = true ->
     co_getDynamicRules C e = (Ok existing, e1) ->
     outcome (buildAddRules C e1) = Throw x ->
     outcome (updateDynamicRequestRules C e) = Throw x /\
     filter is_update (calls (updateDynamicRequestRules C e)) = []).
Proof.
  assert (Hcompile : forall e, filter is_update (calls (buildAddRules C e)) = []).
  { intros e. apply compiler_calls_no_update, buildAddRules_calls. }
  split; [|split].
  - intros e. unfold updateDynamicRequestRules.
    destruct (co_declarativeNetRequest C); cbn [negb]; [|cbn; lia].
    unfold getDynamicRules, updateDynamicRules.
    destruct (co_getDynamicRules C e) as [[existing|x] e1] eqn:E1.
    2:{ rewrite (bind_call_throw _ _ _ _ _ _ _ _ E1). cbn. lia. }
    rewrite (bind_call_ok _ _ _ _ _ _ _ _ E1). cbn [calls filter is_update].
    rewrite calls_bind, filter_app, Hcompile. cbn [app].
    destruct (outcome (buildAddRules C e1)) as [compiled|x]; [|cbn; lia].
    rewrite calls_bind_call.
    destruct (co_updateDynamicRules C _ (after (buildAddRules C e1))) as [[[]|x] e2];
      [|cbn; lia].
    rewrite calls_bind_call.
    destruct (co_getDynamicRules C e2) as [[rs|x] e3]; cbn; lia.
  - intros e e1 x Hd H. unfold updateDynamicRequestRules. rewrite Hd. cbn [negb].
    unfold getDynamicRules. now rewrite (bind_call_throw _ _ _ _ _ _ _ _ H).
  - intros e e1 existing x Hd H Hx. unfold updateDynamicRequestRules. rewrite Hd.
    cbn [negb]. unfold getDynamicRules. rewrite (bind_call_ok _ _ _ _ _ _ _ _ H).
    cbn [outcome calls filter is_update].
    rewrite calls_bind, filter_app, Hcompile. unfold bind at 1 2. rewrite Hx.
    split; reflexivity.
Qed.

Lemma expected_rules_count (accounts : string -> option Account)
    (es : list (nat * AutoSwitchRule)) :
  length (expected_rules accounts es)
  = length (filter (fun p => has_cookies (accounts (account (snd p)))) es).
Proof.
  induction es as [|[index rule] es IH]; [reflexivity|].
  cbn [expected_rules flat_map filter snd]. fold (expected_rules accounts es).
  unfold has_cookies at 1.
  destruct (cookies_or_empty (accounts (account rule))); cbn [app length]; now rewrite IH.
Qed.

Lemma filter_entries {A} (p : A -> bool) (l : list A) :
  forall k,
    length (filter (fun q => p (snd q)) (combine (seq k (length l)) l))
    = length (filter p l).
Proof.
  induction l as [|a l IH]; intros k; [reflexivity|].
  cbn [length seq combine filter snd]. destruct (p a); cbn [length]; now rewrite IH.
Qed.

(** X6. The compiler emits as many filter rules as there are rules
    whose account has stored cookies, so at most one per rule, and every
    id lies between 1 and the length of the rule list; an empty rule
    list compiles to no rule. *)
Theorem buildAddRules_bounds :
  forall (rules : list AutoSwitchRule) (accounts : string -> option Account) (e : Ext),
    stores_hold C rules accounts e ->
    exists rs,
      outcome (buildAddRules C e) = Ok rs /\
      length rs = length (filter (fun r => has_cookies (accounts (account r))) rules) /\
      length rs <= length rules /\
      Forall (fun cr => (1 <= id cr <= Z.of_nat (length rules))%Z) rs /\
      (rules = [] -> rs = []).
Proof.
  intros rules accounts e H.
  exists (expected_rules accounts (entries rules)).
  rewrite (buildAddRules_run _ _ _ C _ _ _ H). cbn [outcome].
  split; [reflexivity|].
  assert (Hlen : length (expected_rules accounts (entries rules))
                 = length (filter (fun r => has_cookies (accounts (account r))) rules)).
  { rewrite expected_rules_count. unfold entries.
    apply (filter_entries (fun r => has_cookies (accounts (account r))) rules 0). }
  split; [exact Hlen|]. split; [rewrite Hlen; apply filter_length_le|]. split.
  - apply Forall_forall. intros cr Hin. apply in_expected_rules in Hin.
    destruct Hin as (index & rule & Hin & _ & ->). cbn [id].
    apply in_entries in Hin.
    assert (index < length rules) by (apply nth_error_Some; congruence). lia.
  - intros ->. reflexivity.
Qed.

End Reconciling.

(* ------------------------------------------------------------------ *)
(** ** More on the interceptor, and the navigation watcher *)

Section Requests.

Variables (Ext Value Error : Type) (C : Collaborators Ext Value Error).

Lemma interceptRequests_loop_footprint (target : string) (hs : list HttpHeader)
    (rules : list AutoSwitchRule) :
  forall e,
    forallb is_interceptor_call (calls (interceptRequests_loop C target hs rules e)) = true /\
    length (filter is_find (calls (interceptRequests_loop C target hs rules e))) <= 1.
Proof.
  induction rules as [|rule rest IH]; intros e.
  - cbn. split; [reflexivity | lia].
  - cbn [interceptRequests_loop].
    destruct (co_RegExp C (urlPattern rule ++ "|__account__=" ++ account rule)%string)
      as [x|test] eqn:E.
    + assert (Hre : RegExp_test C (urlPattern rule ++ "|__account__=" ++ account rule)%string
                      target e = {| outcome := Throw x; after := e; calls := [] |}).
      { unfold RegExp_test. now rewrite E. }
      rewrite (bind_run_throw _ _ _ _ _ _ _ _ Hre). cbn. split; [reflexivity | lia].
    + assert (Hre : RegExp_test C (urlPattern rule ++ "|__account__=" ++ account rule)%string
                      target e = {| outcome := Ok (test target); after := e; calls := [] |}).
      { unfold RegExp_test. now rewrite E. }
      rewrite (bind_run_ok _ _ _ _ _ _ _ _ Hre). cbn [calls app].
      destruct (test target).
      * rewrite calls_bind, buildCookieValue_calls.
        destruct (outcome (buildCookieValue C (account rule) e)); cbn;
          split; (reflexivity || lia).
      * apply IH.
Qed.

(** X7. Whatever the collaborators do, the fallback interceptor only
    reads the rule store, looks up at most one account and logs: it
    writes to no store, never touches the badge, the network or the
    filtering engine. *)
Theorem interceptRequests_read_only :
  forall (details : RequestDetails) (e : Ext),
    forallb is_interceptor_call (calls (interceptRequests_listener C details e)) = true /\
    length (filter is_find (calls (interceptRequests_listener C details e))) <= 1.
Proof.
  intros details e. unfold interceptRequests_listener.
  destruct (details_requestHeaders details) as [hs|]; [|cbn; split; [reflexivity | lia]].
  rewrite calls_bind. unfold ruleService_getAll at 1, call at 1.
  destruct (co_rule_getAll C e) as [o e1] eqn:E.
  cbn [calls app forallb filter is_interceptor_call is_find andb].
  unfold ruleService_getAll, call. rewrite E. cbn [outcome after].
  destruct o as [rules|x]; [|cbn; split; [reflexivity | lia]].
  rewrite calls_bind.
  destruct (interceptRequests_loop_footprint (details_url details) hs rules e1) as [H1 H2].
  destruct (outcome (interceptRequests_loop C (details_url details) hs rules e1));
    cbn [ret calls]; rewrite app_nil_r; split; assumption.
Qed.

Lemma interceptRequests_loop_no_match (target : string) (hs : list HttpHeader) (e : Ext)
    (rules : list AutoSwitchRule) :
  Forall (fun r => matches C r target false) rules ->
  interceptRequests_loop C target hs rules e =
    {| outcome := Ok hs; after := e; calls := [] |}.
Proof.
  induction 1 as [|r rules Hr _ IH]; [reflexivity|].
  cbn [interceptRequests_loop].
  rewrite (bind_run_ok _ _ _ _ _ _ _ _ (RegExp_test_run _ _ _ C _ _ _ e Hr)).
  now rewrite IH.
Qed.

Lemma pattern_test_run (rule : AutoSwitchRule) (target : string) (b : bool) (e : Ext) :
  pattern_matches C (urlPattern rule) target b ->
  RegExp_test C (urlPattern rule) target e = {| outcome := Ok b; after := e; calls := [] |}.
Proof.
  intros (test & Hre & Ht). unfold RegExp_test. rewrite Hre. unfold ret. now rewrite Ht.
Qed.

Lemma watchAutoSwitchRequests_loop_no_match (target : string) (e : Ext)
    (rules : list AutoSwitchRule) :
  Forall (fun r => pattern_matches C (urlPattern r) target false) rules ->
  watchAutoSwitchRequests_loop C target rules e =
    {| outcome := Ok None; after := e; calls := [] |}.
Proof.
  induction 1 as [|r rules Hr _ IH]; [reflexivity|].
  cbn [watchAutoSwitchRequests_loop].
  rewrite (bind_run_ok _ _ _ _ _ _ _ _ (pattern_test_run _ _ _ e Hr)).
  now rewrite IH.
Qed.

Lemma watchAutoSwitchRequests_listener_no_match (rules : list AutoSwitchRule)
    (e e1 : Ext) (target : string) :
  co_rule_getAll C e = (Ok rules, e1) ->
  Forall (fun r => pattern_matches C (urlPattern r) target false) rules ->
  watchAutoSwitchRequests_listener C target e =
    {| outcome := Ok tt; after := e1; calls := [RuleGetAll] |}.
Proof.
  intros Hrules Hall.
  unfold watchAutoSwitchRequests_listener, watchAutoSwitchRequests_promise.
  unfold ruleService_getAll. rewrite (bind_call_ok _ _ _ _ _ _ _ _ Hrules).
  now rewrite (watchAutoSwitchRequests_loop_no_match target e1 rules Hall).
Qed.

Lemma set_cookie_headers_without_cookie (v : string) (hs : list HttpHeader) :
  Forall (fun h => String.eqb (toLowerCase (header_name h)) "cookie" = false) hs ->
  set_cookie_headers v hs = hs.
Proof.
  induction 1 as [|h hs Hh _ IH]; [reflexivity|].
  cbn [set_cookie_headers map]. rewrite Hh. f_equal. exact IH.
Qed.

(** X8. Requests the interceptor lets through untouched: one without
    request headers, for which not even the rule store is read; one
    whose URL matches no rule; and one that has no [Cookie] header, even
    when a rule matches and its account has cookies: the interceptor
    never adds a header. *)
Theorem interceptRequests_pass_through :
  (forall target e,
     interceptRequests_listener C
       {| details_url := target; details_requestHeaders := None |} e =
       {| outcome := Ok None; after := e; calls := [] |}) /\
  (forall rules accounts e target hs,
     stores_hold C rules accounts e ->
     Forall (fun r => matches C r target false) rules ->
     interceptRequests_listener C
       {| details_url := target; details_requestHeaders := Some hs |} e =
       {| outcome := Ok (Some hs); after := e; calls := [RuleGetAll] |}) /\
  (forall rules accounts e target hs pre rule post,
     stores_hold C rules accounts e ->
     rules = pre ++ rule :: post ->
     Forall (fun r => matches C r target false) pre ->
     matches C rule target true ->
     Forall (fun h => String.eqb (toLowerCase (header_name h)) "cookie" = false) hs ->
     outcome (interceptRequests_listener C
                {| details_url := target; details_requestHeaders := Some hs |} e)
       = Ok (Some hs)).
Proof.
  split; [|split].
  - reflexivity.
  - intros rules accounts e target hs [Hrules _] Hall.
    unfold interceptRequests_listener. cbn [details_requestHeaders details_url].
    unfold ruleService_getAll. rewrite (bind_call_ok _ _ _ _ _ _ _ _ Hrules).
    rewrite (bind_run_ok _ _ _ _ _ _ _ _
               (interceptRequests_loop_no_match target hs e rules Hall)).
    reflexivity.
  - intros rules accounts e target hs pre rule post Hs Hr Hpre Hrule Hhs.
    rewrite (interceptRequests_listener_first_match _ _ _ C rules accounts e target hs
               pre rule post Hs Hr Hpre Hrule).
    cbn [outcome]. destruct (cookies_or_empty (accounts (account rule))); [reflexivity|].
    now rewrite set_cookie_headers_without_cookie.
Qed.

(** X9. A stored rule whose pattern is no valid regular expression
    makes the interceptor throw for every request that no earlier rule
    matches: the rules after it are not tried and nothing is
    rewritten. *)
Theorem interceptRequests_invalid_pattern :
  forall (rules : list AutoSwitchRule) (accounts : string -> option Account) (e : Ext)
         (target : string) (hs : list HttpHeader)
         (pre : list AutoSwitchRule) (bad : AutoSwitchRule) (post : list AutoSwitchRule)
         (x : Error),
    stores_hold C rules accounts e ->
    rules = pre ++ bad :: post ->
    Forall (fun r => matches C r target false) pre ->
    co_RegExp C (combined_pattern bad) = inl x ->
    interceptRequests_listener C
      {| details_url := target; details_requestHeaders := Some hs |} e =
      {| outcome := Throw x; after := e; calls := [RuleGetAll] |}.
Proof.
  intros rules accounts e target hs pre bad post x [Hrules _] -> Hpre Hbad.
  unfold interceptRequests_listener. cbn [details_requestHeaders details_url].
  unfold ruleService_getAll. rewrite (bind_call_ok _ _ _ _ _ _ _ _ Hrules).
  assert (Hloop : interceptRequests_loop C target hs (pre ++ bad :: post) e =
                    {| outcome := Throw x; after := e; calls := [] |}).
  { clear Hrules. induction Hpre as [|r pre Hr _ IH].
    - cbn [app interceptRequests_loop]. unfold RegExp_test.
      unfold combined_pattern in Hbad. rewrite Hbad. reflexivity.
    - cbn [app interceptRequests_loop].
      rewrite (bind_run_ok _ _ _ _ _ _ _ _ (RegExp_test_run _ _ _ C _ _ _ e Hr)).
      now rewrite IH. }
  now rewrite (bind_run_throw _ _ _ _ _ _ _ _ Hloop).
Qed.

(** X10. The two rewriting paths agree on the first matching rule: the
    filter rule the compiler emits for it, with id its position plus
    one, tests the very pattern the interceptor tests and sets the very
    cookie value the interceptor writes. *)
Theorem compiler_and_interceptor_agree :
  forall (rules : list AutoSwitchRule) (accounts : string -> option Account) (e : Ext)
         (target : string) (hs : list HttpHeader)
         (pre : list AutoSwitchRule) (rule : AutoSwitchRule) (post : list AutoSwitchRule),
    stores_hold C rules accounts e ->
    rules = pre ++ rule :: post ->
    Forall (fun r => matches C r target false) pre ->
    matches C rule target true ->
    cookies_or_empty (accounts (account rule)) <> [] ->
    exists rs cr value,
      outcome (buildAddRules C e) = Ok rs /\
      In cr rs /\
      id cr = (Z.of_nat (length pre) + 1)%Z /\
      regexFilter (condition cr) = combined_pattern rule /\
      requestHeaders (action cr) =
        [ {| mh_header := "Cookie"; mh_operation := "set"; mh_value := value |} ] /\
      outcome (interceptRequests_listener C
                 {| details_url := target; details_requestHeaders := Some hs |} e)
        = Ok (Some (set_cookie_headers value hs)).
Proof.
  intros rules accounts e target hs pre rule post Hs Hr Hpre Hrule Hne.
  exists (expected_rules accounts (entries rules)).
  eexists. exists (cookie_header_spec (cookies_or_empty (accounts (account rule)))
                     (account rule)).
  rewrite (buildAddRules_run _ _ _ C _ _ _ Hs).
  rewrite (interceptRequests_listener_first_match _ _ _ C rules accounts e target hs
             pre rule post Hs Hr Hpre Hrule).
  cbn [outcome]. split; [reflexivity|]. split.
  - apply in_expected_rules. exists (length pre), rule.
    split; [|split; [exact Hne | reflexivity]].
    apply in_entries. rewrite Hr, nth_error_app2 by lia. now rewrite Nat.sub_diag.
  - cbn [id condition regexFilter action requestHeaders].
    repeat (split; [reflexivity|]).
    destruct (cookies_or_empty (accounts (account rule))); [now destruct Hne | reflexivity].
Qed.

(** X11. On a navigation the watcher switches to the account of the
    first rule whose own pattern matches the URL, once, whether or not
    that account is known or has cookies, and the rules after it are not
    tried; when no pattern matches it switches to nothing.  The listener
    itself never throws: a failing switch is handled by no one. *)
Theorem watchAutoSwitchRequests_first_match :
  (forall (rules : list AutoSwitchRule) (e e1 : Ext) (target : string)
          (pre : list AutoSwitchRule) (rule : AutoSwitchRule) (post : list AutoSwitchRule),
     co_rule_getAll C e = (Ok rules, e1) ->
     rules = pre ++ rule :: post ->
     Forall (fun r => pattern_matches C (urlPattern r) target false) pre ->
     pattern_matches C (urlPattern rule) target true ->
     watchAutoSwitchRequests_listener C target e =
       {| outcome := Ok tt;
          after := snd (co_account_switchTo C (account rule) e1);
          calls := [RuleGetAll;
                    ConsoleInfo "onBeforeRequest: found an auto switch rule for url";
                    AccountSwitchTo (account rule)] |}) /\
  (forall (rules : list AutoSwitchRule) (e e1 : Ext) (target : string),
     co_rule_getAll C e = (Ok rules, e1) ->
     Forall (fun r => pattern_matches C (urlPattern r) target false) rules ->
     watchAutoSwitchRequests_listener C target e =
       {| outcome := Ok tt; after := e1; calls := [RuleGetAll] |}) /\
  (forall target e, outcome (watchAutoSwitchRequests_listener C target e) = Ok tt).
Proof.
  split; [|split].
  - intros rules e e1 target pre rule post Hrules -> Hpre Hrule.
    unfold watchAutoSwitchRequests_listener, watchAutoSwitchRequests_promise.
    unfold ruleService_getAll. rewrite (bind_call_ok _ _ _ _ _ _ _ _ Hrules).
    cbn [after calls].
    assert (Hloop : forall r0,
              r0 = watchAutoSwitchRequests_loop C target (pre ++ rule :: post) e1 ->
              after r0 = snd (co_account_switchTo C (account rule) e1) /\
              calls r0 = [ConsoleInfo "onBeforeRequest: found an auto switch rule for url";
                          AccountSwitchTo (account rule)]).
    { intros r0 ->. clear Hrules. induction Hpre as [|r pre Hr _ IH].
      - cbn [app watchAutoSwitchRequests_loop].
        rewrite (bind_run_ok _ _ _ _ _ _ _ _ (pattern_test_run _ _ _ e1 Hrule)).
        cbn [after calls app].
        unfold bind, console_info, accountService_switchTo, call, ret.
        cbn [outcome after calls].
        destruct (co_account_switchTo C (account rule) e1) as [[v|x] e2];
          cbn [outcome after calls snd app]; split; reflexivity.
      - cbn [app watchAutoSwitchRequests_loop].
        rewrite (bind_run_ok _ _ _ _ _ _ _ _ (pattern_test_run _ _ _ e1 Hr)).
        cbn [after calls app]. exact IH. }
    destruct (Hloop _ eq_refl) as [Ha Hc]. now rewrite Ha, Hc.
  - intros rules e e1 target Hrules Hall.
    now apply watchAutoSwitchRequests_listener_no_match with (rules := rules).
  - reflexivity.
Qed.

(** X12. The navigation watcher tests a rule's own pattern, the
    interceptor that pattern or the account marker: a URL that no rule's
    own pattern matches, but that carries the marker of a rule whose
    account has cookies, gets its [Cookie] header rewritten and is not
    followed by an account switch. *)
Theorem marker_match_rewrites_without_switch :
  forall (rules : list AutoSwitchRule) (accounts : string -> option Account) (e : Ext)
         (target : string) (hs : list HttpHeader)
         (pre : list AutoSwitchRule) (rule : AutoSwitchRule) (post : list AutoSwitchRule),
    stores_hold C rules accounts e ->
    rules = pre ++ rule :: post ->
    Forall (fun r => matches C r target false) pre ->
    matches C rule target true ->
    Forall (fun r => pattern_matches C (urlPattern r) target false) rules ->
    cookies_or_empty (accounts (account rule)) <> [] ->
    outcome (interceptRequests_listener C
               {| details_url := target; details_requestHeaders := Some hs |} e)
      = Ok (Some (set_cookie_headers
                    (cookie_header_spec (cookies_or_empty (accounts (account rule)))
                       (account rule)) hs)) /\
    filter is_switch (calls (watchAutoSwitchRequests_listener C target e)) = [].
Proof.
  intros rules accounts e target hs pre rule post Hs Hr Hpre Hrule Hplain Hne.
  split.
  - rewrite (interceptRequests_listener_first_match _ _ _ C rules accounts e target hs
               pre rule post Hs Hr Hpre Hrule).
    cbn [outcome].
    destruct (cookies_or_empty (accounts (account rule))); [now destruct Hne | reflexivity].
  - rewrite (watchAutoSwitchRequests_listener_no_match rules e e target
               (proj1 Hs) Hplain).
    reflexivity.
Qed.

End Requests.

(* ------------------------------------------------------------------ *)
(** ** More on the watcher and the message boundary *)

Section Watching.

Variables (Ext Value Error : Type) (C : Collaborators Ext Value Error).

Lemma qualifying_next_handle (changeInfo : ChangeInfo) (w : Loop Ext) :
  qualifying changeInfo ->
  nextTimer (watchCookies_listener C changeInfo w) = Pos.succ (nextTimer w).
Proof.
  intros Hq. destruct (qualifying_schedules _ _ _ C changeInfo w Hq) as [what ->].
  unfold scheduleSync. destruct (syncTimer _); reflexivity.
Qed.

Lemma window_step (w : Loop Ext) (ev : Event Ext Error) :
  one_pending w -> timers_in_window w -> timers_in_window (step C w ev).
Proof.
  intros Hone Hwin. destruct ev as [changeInfo|dt|m|f]; cbn [step].
  - destruct (has AUTH_COOKIES (cookie_name (changed_cookie changeInfo))) eqn:Hhas;
      [destruct (removed changeInfo) eqn:Hrem|].
    + destruct (not_qualifying_keeps_timers _ _ _ C changeInfo w) as (Ht & _ & Hn & Hc).
      { intros [_ Hq]. congruence. }
      unfold timers_in_window. now rewrite Ht, Hn, Hc.
    + pose proof (conj Hhas Hrem : qualifying changeInfo) as Hq.
      destruct (qualifying_event_arms _ _ _ C changeInfo w Hone Hq) as (_ & Ht & _ & Hn & _).
      unfold timers_in_window. rewrite Ht, Hn, (qualifying_next_handle changeInfo w Hq).
      intros x [<-|[]]. cbn [timer_due timer_id]. split; lia.
    + destruct (not_qualifying_keeps_timers _ _ _ C changeInfo w) as (Ht & _ & Hn & Hc).
      { intros [Hq _]. congruence. }
      unfold timers_in_window. now rewrite Ht, Hn, Hc.
  - unfold one_pending in Hone. destruct (syncTimer w) as [t|].
    + destruct Hone as [due Ht].
      destruct (N.leb due (now w + dt)) eqn:Hd.
      * apply N.leb_le in Hd. rewrite (elapse_fires _ _ _ C dt w t due Ht Hd).
        intros x []. 
      * rewrite elapse_waits.
        -- unfold timers_in_window. cbn [timers now nextTimer]. intros x Hx.
           destruct (Hwin x Hx) as [[H1 H2] H3]. rewrite Ht in Hx.
           destruct Hx as [<-|[]]. cbn [timer_due] in *.
           apply N.leb_gt in Hd. repeat split; [lia | lia | exact H3].
        -- rewrite Ht. cbn [forallb]. unfold is_due. cbn [timer_due]. now rewrite Hd.
    + rewrite elapse_waits.
      * unfold timers_in_window. cbn [timers]. rewrite Hone. intros x [].
      * now rewrite Hone.
  - exact Hwin.
  - exact Hwin.
Qed.

(** X13. In every run of the loop from startup a pending timer is due
    strictly later than now and at most 300 ms later, and its handle is
    older than the next handle to be given; so from any point of any run
    300 ms without events leave no timer pending. *)
Theorem pending_timer_within_300ms :
  forall (e : Ext) (evs : list (Event Ext Error)),
    timers_in_window (steps C (startup e) evs) /\
    timers (elapse C 300 (steps C (startup e) evs)) = [].
Proof.
  intros e evs.
  assert (H : forall w, one_pending w -> timers_in_window w ->
                        one_pending (steps C w evs) /\ timers_in_window (steps C w evs)).
  { induction evs as [|ev evs IH]; intros w H1 H2; [now split|].
    cbn [steps fold_left]. apply IH.
    - now apply one_pending_step.
    - now apply window_step. }
  destruct (H (startup e)) as [Hone Hwin].
  { reflexivity. }
  { intros x []. }
  split; [exact Hwin|].
  set (w := steps C (startup e) evs) in *.
  unfold one_pending in Hone. destruct (syncTimer w) as [t|].
  - destruct Hone as [due Ht].
    rewrite (elapse_fires _ _ _ C 300 w t due Ht); [reflexivity|].
    destruct (Hwin {| timer_id := t; timer_due := due |}) as [[_ H2] _].
    + rewrite Ht. now left.
    + exact H2.
  - rewrite elapse_waits; [exact Hone | now rewrite Hone].
Qed.

Lemma event_then_quiet (changeInfo : ChangeInfo) (w : Loop Ext) :
  one_pending w ->
  qualifying changeInfo ->
  one_pending (elapse C 300 (watchCookies_listener C changeInfo w)) /\
  sync_invocations (log (elapse C 300 (watchCookies_listener C changeInfo w)))
  = sync_invocations (log w) + 1.
Proof.
  intros Hone Hq.
  destruct (qualifying_event_arms _ _ _ C changeInfo w Hone Hq) as (Hs & Ht & He & Hn & Hc).
  rewrite (elapse_fires _ _ _ C 300 _ _ _ Ht) by (rewrite Hn; lia).
  split; [reflexivity|].
  rewrite (proj1 (proj2 (syncTimer_callback_runs _ _ _ C _))). cbn [log ext].
  rewrite sync_invocations_app, debounced_sync_once, Hc. reflexivity.
Qed.

(** X14. A failing sync does not stop the watcher.  The debounced sync
    never throws: an error of [syncAccounts] is logged as one warning
    and a successful sync logs none.  The timer callback clears
    [syncTimer] either way, so once the timer has fired no timer is
    pending and none is referred to.  Whatever the first sync did, a
    further qualifying notification arms the timer again and the sync
    runs again 300 ms later. *)
Theorem failed_sync_keeps_watcher :
  (forall e, outcome (debounced_sync C e) = Ok tt) /\
  (forall e x,
     outcome (syncAccounts C e) = Throw x ->
     calls (debounced_sync C e) =
       calls (syncAccounts C e)
         ++ [ConsoleWarn "Failed to sync accounts after auth cookie change"]) /\
  (forall e,
     outcome (syncAccounts C e) = Ok tt ->
     debounced_sync C e = syncAccounts C e) /\
  (forall (w : Loop Ext) (first second : ChangeInfo),
     one_pending w ->
     qualifying first ->
     qualifying second ->
     sync_invocations
       (log (steps C w [CookieChanged first; Elapse 300; CookieChanged second; Elapse 300]))
     = sync_invocations (log w) + 2) /\
  (forall (w : Loop Ext),
     syncTimer (syncTimer_callback C w) = None /\
     timers (syncTimer_callback C w) = timers w /\
     log (syncTimer_callback C w) = log w ++ calls (debounced_sync C (ext w))) /\
  (forall (w : Loop Ext) (first : ChangeInfo),
     one_pending w ->
     qualifying first ->
     let w' := steps C w [CookieChanged first; Elapse 300] in
     syncTimer w' = None /\
     timers w' = [] /\
     forall second,
       qualifying second ->
       syncTimer (watchCookies_listener C second w') = Some (nextTimer w') /\
       timers (watchCookies_listener C second w') =
         [ {| timer_id := nextTimer w'; timer_due := now w' + 300 |} ]).
Proof.
  split; [|split; [|split; [|split; [|split]]]].
  - intros e. unfold debounced_sync, try_catch.
    destruct (outcome (syncAccounts C e)) as [[]|x] eqn:E; [exact E | reflexivity].
  - intros e x H. unfold debounced_sync, try_catch. rewrite H. reflexivity.
  - intros e H. unfold debounced_sync, try_catch. now rewrite H.
  - intros w first second Hone H1 H2. cbn [steps fold_left step].
    destruct (event_then_quiet first w Hone H1) as [Hone' Hc'].
    destruct (event_then_quiet second _ Hone' H2) as [_ Hc''].
    rewrite Hc'', Hc'. lia.
  - intros w. repeat split.
  - intros w first Hone Hq w'. subst w'. cbn [steps fold_left step].
    destruct (qualifying_event_arms _ _ _ C first w Hone Hq) as (_ & Ht & _ & Hn & _).
    assert (Hfire : elapse C 300 (watchCookies_listener C first w) =
                    syncTimer_callback C
                      {| ext := ext (watchCookies_listener C first w);
                         log := log (watchCookies_listener C first w);
                         syncTimer := syncTimer (watchCookies_listener C first w);
                         timers := [];
                         now := now (watchCookies_listener C first w) + 300;
                         nextTimer := nextTimer (watchCookies_listener C first w) |}).
    { apply (elapse_fires _ _ _ C 300 _ _ _ Ht). rewrite Hn. lia. }
    assert (Hs' : syncTimer (elapse C 300 (watchCookies_listener C first w)) = None)
      by now rewrite Hfire.
    assert (Ht' : timers (elapse C 300 (watchCookies_listener C first w)) = [])
      by now rewrite Hfire.
    split; [exact Hs'|]. split; [exact Ht'|].
    intros second Hq2.
    assert (Hone' : one_pending (elapse C 300 (watchCookies_listener C first w))).
    { unfold one_pending. now rewrite Hs'. }
    destruct (qualifying_event_arms _ _ _ C second _ Hone' Hq2) as (Hs2 & Ht2 & _).
    split; [exact Hs2 | exact Ht2].
Qed.

(** X15. No notification syncs at once: whatever the cookie and
    whether it was set or removed, the listener itself invokes no
    account sync and lets no time pass, so every sync of the watcher
    goes through the debounce timer; a notification of a cookie outside
    the allow-list changes nothing at all. *)
Theorem notification_never_syncs_at_once :
  forall (changeInfo : ChangeInfo) (w : Loop Ext),
    sync_invocations (log (watchCookies_listener C changeInfo w))
      = sync_invocations (log w) /\
    now (watchCookies_listener C changeInfo w) = now w /\
    (has AUTH_COOKIES (cookie_name (changed_cookie changeInfo)) = false ->
     watchCookies_listener C changeInfo w = w).
Proof.
  intros changeInfo w. split; [|split].
  - unfold watchCookies_listener.
    destruct (has AUTH_COOKIES _); cbn [negb]; [|reflexivity].
    destruct (removed changeInfo).
    + destruct (String.eqb _ "dotcom_user"); [|reflexivity].
      unfold exec, bind, console_info, setBadgeText, call. cbn [outcome after calls snd log].
      destruct (co_setBadgeText C "..." (ext w)). cbn [calls].
      rewrite sync_invocations_app. cbn. lia.
    + destruct (String.eqb _ "dotcom_user");
        rewrite (proj1 (proj2 (proj2 (proj2 (scheduleSync_arms _ _)))));
        cbn [exec snd log console_info calls]; rewrite sync_invocations_app; cbn; lia.
  - unfold watchCookies_listener.
    destruct (has AUTH_COOKIES _); cbn [negb]; [|reflexivity].
    destruct (removed changeInfo).
    + destruct (String.eqb _ "dotcom_user"); reflexivity.
    + destruct (String.eqb _ "dotcom_user");
        now rewrite (proj2 (proj2 (proj2 (proj2 (scheduleSync_arms _ _))))).
  - intros H. unfold watchCookies_listener. now rewrite H.
Qed.

(** X16. A [removeAccount] message removes the account and then
    reconciles the filter rules; when the removal throws, the filtering
    engine is not touched and the answer is the failure.  No message of
    another kind touches the filtering engine, and each makes at most
    one service call. *)
Theorem removeAccount_message_reconciles :
  (forall a e e1 x,
     co_account_remove C a e = (Throw x, e1) ->
     listenMessage_listener C {| msg_type := "removeAccount"; msg_account := a |} e =
       {| outcome := Ok (success_false x); after := e1; calls := [AccountRemove a] |}) /\
  (forall a e e1,
     co_account_remove C a e = (Ok tt, e1) ->
     let r := listenMessage_listener C {| msg_type := "removeAccount"; msg_account := a |} e in
     calls r = AccountRemove a :: calls (updateDynamicRequestRules C e1) /\
     after r = after (updateDynamicRequestRules C e1) /\
     outcome r =
       match outcome (updateDynamicRequestRules C e1) with
       | Ok _ => Ok (success_true D_undefined)
       | Throw x => Ok (success_false x)
       end) /\
  (forall message e,
     msg_type message <> "removeAccount" ->
     filter is_engine_call (calls (handleMessage C message e)) = [] /\
     length (calls (handleMessage C message e)) <= 1).
Proof.
  split; [|split].
  - intros a e e1 x H.
    assert (Hh : handleMessage C {| msg_type := "removeAccount"; msg_account := a |} e =
                   {| outcome := Throw x; after := e1; calls := [AccountRemove a] |}).
    { unfold handleMessage.
      cbn [msg_type msg_account String.eqb Ascii.eqb Bool.eqb andb].
      assert (Hrm : removeAccount C a e =
                      {| outcome := Throw x; after := e1; calls := [AccountRemove a] |}).
      { unfold removeAccount, accountService_remove.
        now rewrite (bind_call_throw _ _ _ _ _ _ _ _ H). }
      now rewrite (bind_run_throw _ _ _ _ _ _ _ _ Hrm). }
    unfold listenMessage_listener, try_catch.
    rewrite (bind_run_throw _ _ _ _ _ _ _ _ Hh). reflexivity.
  - intros a e e1 H r. subst r.
    assert (Hrm : removeAccount C a e =
                    {| outcome := outcome (updateDynamicRequestRules C e1);
                       after := after (updateDynamicRequestRules C e1);
                       calls := AccountRemove a :: calls (updateDynamicRequestRules C e1) |}).
    { unfold removeAccount, accountService_remove.
      now rewrite (bind_call_ok _ _ _ _ _ _ _ _ H). }
    unfold listenMessage_listener, try_catch, handleMessage.
    cbn [msg_type msg_account String.eqb Ascii.eqb Bool.eqb andb].
    unfold bind. rewrite Hrm. cbn [outcome after calls].
    destruct (outcome (updateDynamicRequestRules C e1)) as [[]|x];
      cbn [outcome after calls ret app]; rewrite ?app_nil_r; repeat split.
  - intros message e Hne. apply String.eqb_neq in Hne.
    unfold handleMessage. cbv zeta. rewrite Hne.
    destruct (String.eqb (msg_type message) "getAccounts").
    { unfold bind, accountService_getAllNames, call.
      destruct (co_account_getAllNames C e) as [[v|x] e1]; cbn; split; (reflexivity || lia). }
    destruct (String.eqb (msg_type message) "switchAccount").
    { unfold bind, accountService_switchTo, call.
      destruct (co_account_switchTo C _ e) as [[v|x] e1]; cbn; split; (reflexivity || lia). }
    destruct (String.eqb (msg_type message) "clearCookies").
    { unfold bind, cookie_clear, call.
      destruct (co_cookie_clear C e) as [[v|x] e1]; cbn; split; (reflexivity || lia). }
    destruct (String.eqb (msg_type message) "getAutoSwitchRules").
    { unfold bind, ruleService_getAll, call.
      destruct (co_rule_getAll C e) as [[v|x] e1]; cbn; split; (reflexivity || lia). }
    cbn. split; [reflexivity | lia].
Qed.

End Watching.

(* ------------------------------------------------------------------ *)
(** ** Further runs on the in-memory collaborators *)

(** A jar without session cookie: the sync reads two cookies and
    stops. *)
Lemma syncAccounts_needs_identity_witness :
  syncAccounts Mem.collaborators Mem.no_session =
    {| outcome := Ok tt; after := Mem.no_session;
       calls := [CookieGet "dotcom_user"; CookieGet "user_session"] |}.
Proof.
  apply (syncAccounts_needs_identity _ _ _ Mem.collaborators
           Mem.no_session Mem.no_session Mem.no_session
           (Some {| cookie_name := "dotcom_user"; cookie_value := "bob" |}) None);
    [reflexivity | reflexivity | right; left; reflexivity].
Defined.

(** The sync of [bob] with an avatar found: stored, reconciled,
    fetched, saved, badge [bo]. *)
Lemma syncAccounts_order_witness :
  let e := Mem.only_bob_has_cookies in
  exists reconcile,
    calls (syncAccounts Mem.avatar_found e) =
      [CookieGet "dotcom_user"; CookieGet "user_session"; CookieGetAll;
       AccountUpsert "bob" (Mem.jar e); AccountGetAll; ConsoleInfo "synced accounts"]
        ++ reconcile
        ++ [Fetch "https://github.com/bob.png?size=100";
            AccountSaveAvatar "bob" "https://github.com/bob.png?size=100";
            SetBadgeText "bo"].
Proof.
  intros e.
  pose (u := {| cookie_name := "dotcom_user"; cookie_value := "bob" |}).
  pose (s := {| cookie_name := "user_session"; cookie_value := "zz" |}).
  pose (e4 := Mem.upsert "bob" (Mem.jar e) e).
  destruct (syncAccounts_order _ _ _ Mem.avatar_found e e e e e4 e4
              (after (updateDynamicRequestRules Mem.avatar_found e4))
              (after (updateDynamicRequestRules Mem.avatar_found e4))
              u s (Mem.jar e) (Mem.accounts e4)
              (calls (updateDynamicRequestRules Mem.avatar_found e4))
              {| status := 200; url := "https://github.com/bob.png?size=100" |})
    as (Hcalls & _ & _);
    try reflexivity.
  - discriminate.
  - eexists. rewrite Hcalls. reflexivity.
Defined.

(** The sync of [bob] with the network down: the error comes out, the
    account is stored and the badge is not set. *)
Lemma syncAccounts_network_failure_witness :
  let e := Mem.only_bob_has_cookies in
  outcome (syncAccounts Mem.offline e) = Throw "network error" /\
  In (AccountUpsert "bob" (Mem.jar e)) (calls (syncAccounts Mem.offline e)) /\
  filter is_badge (calls (syncAccounts Mem.offline e)) = [].
Proof.
  intros e.
  pose (u := {| cookie_name := "dotcom_user"; cookie_value := "bob" |}).
  pose (s := {| cookie_name := "user_session"; cookie_value := "zz" |}).
  pose (e4 := Mem.upsert "bob" (Mem.jar e) e).
  destruct (syncAccounts_network_failure _ _ _ Mem.offline e e e e e4 e4
              (after (updateDynamicRequestRules Mem.offline e4))
              (after (updateDynamicRequestRules Mem.offline e4))
              u s (Mem.jar e) (Mem.accounts e4)
              (calls (updateDynamicRequestRules Mem.offline e4))
              "network error")
    as (Hrun & Hbadge);
    try reflexivity.
  - discriminate.
  - split; [now rewrite Hrun|]. split.
    + rewrite Hrun. cbn [calls]. vm_compute. tauto.
    + rewrite Hbadge. reflexivity.
Defined.

(** Startup with the network down registers nothing; startup without
    declarative filtering registers the interceptor. *)
Lemma init_registers_after_sync_witness :
  outcome (syncAccounts Mem.offline Mem.only_bob_has_cookies) = Throw "network error" /\
  snd (init Mem.offline Mem.only_bob_has_cookies) = [] /\
  outcome (syncAccounts Mem.fallback Mem.no_session) = Ok tt /\
  In OnBeforeSendHeaders (snd (init Mem.fallback Mem.no_session)) /\
  In OnCookiesChanged (snd (init Mem.fallback Mem.no_session)).
Proof.
  pose proof (init_registers_after_sync _ _ _ Mem.offline) as [H1 _].
  pose proof (init_registers_after_sync _ _ _ Mem.fallback) as [_ H2].
  split; [reflexivity|]. split.
  - now rewrite (H1 Mem.only_bob_has_cookies "network error" eq_refl).
  - split; [reflexivity|].
    destruct (H2 Mem.no_session eq_refl) as (_ & Hall & Hiff).
    split; [apply Hiff; intros e'; reflexivity | apply Hall; discriminate].
Defined.

(** A reconciliation with the engine unreadable, and one with the
    account store unsearchable: no update. *)
Lemma updateDynamicRequestRules_all_or_nothing_witness :
  updateDynamicRequestRules Mem.engine_down Mem.only_bob_has_cookies =
    {| outcome := Throw "engine unavailable"; after := Mem.only_bob_has_cookies;
       calls := [GetDynamicRules] |} /\
  outcome (updateDynamicRequestRules Mem.accounts_down Mem.only_bob_has_cookies)
    = Throw "account store unavailable" /\
  filter is_update (calls (updateDynamicRequestRules Mem.accounts_down
                             Mem.only_bob_has_cookies)) = [].
Proof.
  pose proof (updateDynamicRequestRules_all_or_nothing _ _ _ Mem.engine_down)
    as (_ & H2 & _).
  pose proof (updateDynamicRequestRules_all_or_nothing _ _ _ Mem.accounts_down)
    as (_ & _ & H3).
  split.
  - apply H2; reflexivity.
  - apply (H3 Mem.only_bob_has_cookies Mem.only_bob_has_cookies
             (Mem.dynamic Mem.only_bob_has_cookies) "account store unavailable");
      reflexivity.
Defined.

(** Two rules, one account with cookies: one filter rule. *)
Lemma buildAddRules_bounds_witness :
  exists rs,
    outcome (buildAddRules Mem.collaborators Mem.only_bob_has_cookies) = Ok rs /\
    length rs = 1 /\
    Forall (fun cr => (1 <= id cr <= 2)%Z) rs.
Proof.
  destruct (buildAddRules_bounds _ _ _ Mem.collaborators
              (Mem.rules Mem.only_bob_has_cookies)
              (fun n => Mem.find_account n Mem.only_bob_has_cookies)
              Mem.only_bob_has_cookies (mem_stores_hold true _))
    as (rs & Hrs & Hlen & _ & Hids & _).
  exists rs. split; [exact Hrs|]. split; [exact Hlen | exact Hids].
Defined.

(** A request to another site, and a matching request without [Cookie]
    header: both pass as they are. *)
Lemma interceptRequests_pass_through_witness :
  let accept := [ {| header_name := "Accept"; header_value := Some "text/html" |} ] in
  interceptRequests_listener Mem.fallback
    {| details_url := "https://gitlab.com/org1";
       details_requestHeaders :=
         Some [ {| header_name := "Cookie"; header_value := Some "foo=bar" |} ] |}
    Mem.alice_rule =
    {| outcome := Ok (Some [ {| header_name := "Cookie"; header_value := Some "foo=bar" |} ]);
       after := Mem.alice_rule; calls := [RuleGetAll] |} /\
  matches Mem.fallback {| account := "alice"; urlPattern := "github.com/org1" |}
    "https://github.com/org1/x" true /\
  outcome (interceptRequests_listener Mem.fallback
             {| details_url := "https://github.com/org1/x";
                details_requestHeaders := Some accept |}
             Mem.alice_rule)
    = Ok (Some accept).
Proof.
  intros accept.
  pose proof (interceptRequests_pass_through _ _ _ Mem.fallback) as (_ & H2 & H3).
  pose (rule := {| account := "alice"; urlPattern := "github.com/org1" |}).
  assert (Hm : matches Mem.fallback rule "https://github.com/org1/x" true)
    by apply (mem_matches false rule "https://github.com/org1/x").
  split; [|split; [exact Hm|]].
  - apply (H2 (Mem.rules Mem.alice_rule) (fun n => Mem.find_account n Mem.alice_rule)).
    + apply (mem_stores_hold false).
    + constructor; [|constructor].
      apply (mem_matches false rule "https://gitlab.com/org1").
  - apply (H3 (Mem.rules Mem.alice_rule) (fun n => Mem.find_account n Mem.alice_rule)
              Mem.alice_rule "https://github.com/org1/x" accept [] rule []).
    + apply (mem_stores_hold false).
    + reflexivity.
    + constructor.
    + exact Hm.
    + repeat constructor.
Defined.

(** A rule with an unbalanced parenthesis before the rules of [alice]
    and [bob]: the interceptor throws on a request both would match. *)
Lemma interceptRequests_invalid_pattern_witness :
  co_RegExp Mem.strict_regexp "github.com/(|__account__=carol" = inl "SyntaxError" /\
  interceptRequests_listener Mem.strict_regexp
    {| details_url := "https://github.com/org1/x";
       details_requestHeaders :=
         Some [ {| header_name := "Cookie"; header_value := Some "foo=bar" |} ] |}
    Mem.broken_rule_first =
    {| outcome := Throw "SyntaxError"; after := Mem.broken_rule_first;
       calls := [RuleGetAll] |}.
Proof.
  split; [reflexivity|].
  apply (interceptRequests_invalid_pattern _ _ _ Mem.strict_regexp
           (Mem.rules Mem.broken_rule_first)
           (fun n => Mem.find_account n Mem.broken_rule_first)
           Mem.broken_rule_first "https://github.com/org1/x" _
           [] {| account := "carol"; urlPattern := "github.com/(" |}
           (Mem.rules Mem.only_bob_has_cookies) "SyntaxError").
  - split; [reflexivity | intros n; reflexivity].
  - reflexivity.
  - constructor.
  - reflexivity.
Defined.

(** The rule of [alice]: the compiled rule and the interceptor set the
    same value. *)
Lemma compiler_and_interceptor_agree_witness :
  let hs := [ {| header_name := "cookie"; header_value := None |} ] in
  exists cr,
    outcome (buildAddRules Mem.fallback Mem.alice_rule) = Ok [cr] /\
    requestHeaders (action cr) =
      [ {| mh_header := "Cookie"; mh_operation := "set";
           mh_value := "s=x; __account__=alice" |} ] /\
    outcome (interceptRequests_listener Mem.fallback
               {| details_url := "https://github.com/org1/x";
                  details_requestHeaders := Some hs |} Mem.alice_rule)
      = Ok (Some [ {| header_name := "cookie";
                      header_value := Some "s=x; __account__=alice" |} ]).
Proof.
  intros hs.
  pose (rule := {| account := "alice"; urlPattern := "github.com/org1" |}).
  destruct (compiler_and_interceptor_agree _ _ _ Mem.fallback
              (Mem.rules Mem.alice_rule) (fun n => Mem.find_account n Mem.alice_rule)
              Mem.alice_rule "https://github.com/org1/x" hs [] rule []
              (mem_stores_hold false _) eq_refl (Forall_nil _)
              (mem_matches false rule "https://github.com/org1/x"))
    as (rs & cr & value & Hrs & Hin & _ & _ & Hv & Hrun).
  - discriminate.
  - assert (Hcr : rs = [cr]).
    { assert (Hone : exists c, rs = [c]).
      { vm_compute in Hrs. inversion Hrs. eexists. reflexivity. }
      destruct Hone as [c ->]. destruct Hin as [->|[]]. reflexivity. }
    assert (Hvalue : value = "s=x; __account__=alice").
    { subst rs. vm_compute in Hrs. inversion Hrs as [Hc]. rewrite <- Hc in Hv.
      cbn in Hv. now inversion Hv. }
    exists cr. split; [now rewrite Hrs, Hcr|]. split.
    + now rewrite Hv, Hvalue.
    + rewrite Hrun, Hvalue. reflexivity.
Defined.

(** A navigation both patterns match switches to [alice], the first,
    who has no cookies; a navigation to another site switches to no
    one. *)
Lemma watchAutoSwitchRequests_first_match_witness :
  let e := Mem.only_bob_has_cookies in
  pattern_matches Mem.collaborators "github.com/org1" "https://github.com/org1/x" true /\
  calls (watchAutoSwitchRequests_listener Mem.collaborators "https://github.com/org1/x" e)
    = [RuleGetAll; ConsoleInfo "onBeforeRequest: found an auto switch rule for url";
       AccountSwitchTo "alice"] /\
  Mem.jar (after (watchAutoSwitchRequests_listener Mem.collaborators
                    "https://github.com/org1/x" e)) = [] /\
  watchAutoSwitchRequests_listener Mem.collaborators "https://gitlab.com/" e
    = {| outcome := Ok tt; after := e; calls := [RuleGetAll] |}.
Proof.
  intros e.
  pose proof (watchAutoSwitchRequests_first_match _ _ _ Mem.collaborators) as (H1 & H2 & _).
  assert (Hm : pattern_matches Mem.collaborators "github.com/org1"
                 "https://github.com/org1/x" true).
  { eexists. split; reflexivity. }
  pose proof (H1 (Mem.rules e) e e "https://github.com/org1/x" []
                {| account := "alice"; urlPattern := "github.com/org1" |}
                [ {| account := "bob"; urlPattern := "github.com/org" |} ]
                eq_refl eq_refl (Forall_nil _) Hm) as Hrun.
  split; [exact Hm|]. split; [now rewrite Hrun|]. split; [now rewrite Hrun|].
  apply (H2 (Mem.rules e)); [reflexivity|].
  repeat constructor; eexists; split; reflexivity.
Defined.

(** A URL that carries the marker of [alice] and matches no pattern: the
    header is rewritten, no account is switched to. *)
Lemma marker_match_rewrites_without_switch_witness :
  let target := "https://github.com/settings?__account__=alice" in
  let rule := {| account := "alice"; urlPattern := "github.com/org1" |} in
  matches Mem.fallback rule target true /\
  pattern_matches Mem.fallback (urlPattern rule) target false /\
  outcome (interceptRequests_listener Mem.fallback
             {| details_url := target;
                details_requestHeaders :=
                  Some [ {| header_name := "Cookie"; header_value := Some "foo=bar" |} ] |}
             Mem.alice_rule)
    = Ok (Some [ {| header_name := "Cookie";
                    header_value := Some "s=x; __account__=alice" |} ]) /\
  filter is_switch (calls (watchAutoSwitchRequests_listener Mem.fallback target
                             Mem.alice_rule)) = [].
Proof.
  intros target rule.
  assert (Hm : matches Mem.fallback rule target true) by apply (mem_matches false rule target).
  assert (Hp : pattern_matches Mem.fallback (urlPattern rule) target false).
  { eexists. split; reflexivity. }
  destruct (marker_match_rewrites_without_switch _ _ _ Mem.fallback
              (Mem.rules Mem.alice_rule) (fun n => Mem.find_account n Mem.alice_rule)
              Mem.alice_rule target
              [ {| header_name := "Cookie"; header_value := Some "foo=bar" |} ]
              [] rule [] (mem_stores_hold false _) eq_refl (Forall_nil _) Hm)
    as (Hrun & Hswitch).
  - repeat constructor. exact Hp.
  - discriminate.
  - split; [exact Hm|]. split; [exact Hp|]. split; [now rewrite Hrun | exact Hswitch].
Defined.

(** With the network down every sync fails and is logged; after the
    failed sync no timer is pending or referred to; two notifications,
    each followed by 300 ms of quiet, still give two syncs. *)
Lemma failed_sync_keeps_watcher_witness :
  let e := Mem.only_bob_has_cookies in
  let w' := steps Mem.offline (startup e)
              [CookieChanged (Mem.cookie_set "_gh_sso"); Elapse 300] in
  outcome (syncAccounts Mem.offline e) = Throw "network error" /\
  filter is_warn (calls (debounced_sync Mem.offline e))
    = [ConsoleWarn "Failed to sync accounts after auth cookie change"] /\
  debounced_sync Mem.collaborators Mem.no_session = syncAccounts Mem.collaborators Mem.no_session /\
  sync_invocations
    (log (steps Mem.offline (startup e)
            [CookieChanged (Mem.cookie_set "_gh_sso"); Elapse 300;
             CookieChanged (Mem.cookie_set "logged_in"); Elapse 300]))
    = 2 /\
  filter is_warn (log w')
    = [ConsoleWarn "Failed to sync accounts after auth cookie change"] /\
  syncTimer w' = None /\
  timers w' = [] /\
  syncTimer (watchCookies_listener Mem.offline (Mem.cookie_set "logged_in") w') = Some 2%positive.
Proof.
  intros e w'.
  pose proof (failed_sync_keeps_watcher _ _ _ Mem.offline) as (_ & H2 & _ & H4 & _ & H6).
  pose proof (failed_sync_keeps_watcher _ _ _ Mem.collaborators) as (_ & _ & H3 & _).
  assert (Hq1 : qualifying (Mem.cookie_set "_gh_sso")) by (split; reflexivity).
  assert (Hq2 : qualifying (Mem.cookie_set "logged_in")) by (split; reflexivity).
  assert (Hone : one_pending (startup e)) by reflexivity.
  split; [reflexivity|]. split; [|split; [|split; [|split]]].
  - rewrite (H2 e "network error" eq_refl). reflexivity.
  - apply H3. reflexivity.
  - apply (H4 (startup e) (Mem.cookie_set "_gh_sso") (Mem.cookie_set "logged_in"));
      assumption.
  - reflexivity.
  - destruct (H6 (startup e) (Mem.cookie_set "_gh_sso") Hone Hq1) as (Hs & Ht & Hnext).
    split; [exact Hs|]. split; [exact Ht|].
    exact (proj1 (Hnext (Mem.cookie_set "logged_in") Hq2)).
Defined.

(** A notification of a cookie outside the allow-list, while a timer is
    pending. *)
Lemma notification_never_syncs_at_once_witness :
  let w := watchCookies_listener Mem.collaborators (Mem.cookie_set "_gh_sso")
             (startup Mem.only_bob_has_cookies) in
  has AUTH_COOKIES "tz" = false /\
  watchCookies_listener Mem.collaborators (Mem.cookie_set "tz") w = w.
Proof.
  intros w. split; [reflexivity|].
  apply (proj2 (proj2 (notification_never_syncs_at_once _ _ _ Mem.collaborators
                         (Mem.cookie_set "tz") w))).
  reflexivity.
Defined.

(** Removing [alice] from a store that refuses, and from one that
    obeys; a [getAccounts] message. *)
Lemma removeAccount_message_reconciles_witness :
  let remove := {| msg_type := "removeAccount"; msg_account := "alice" |} in
  let e := Mem.only_bob_has_cookies in
  listenMessage_listener Mem.read_only_accounts remove e =
    {| outcome := Ok (success_false "account store read-only"); after := e;
       calls := [AccountRemove "alice"] |} /\
  outcome (listenMessage_listener Mem.collaborators remove e) = Ok (success_true D_undefined) /\
  length (filter is_update (calls (listenMessage_listener Mem.collaborators remove e))) = 1 /\
  filter is_engine_call
    (calls (handleMessage Mem.collaborators
              {| msg_type := "getAccounts"; msg_account := "" |} e)) = [].
Proof.
  intros remove e.
  pose proof (removeAccount_message_reconciles _ _ _ Mem.read_only_accounts) as (H1 & _ & _).
  pose proof (removeAccount_message_reconciles _ _ _ Mem.collaborators) as (_ & H2 & H3).
  split; [apply H1; reflexivity|].
  destruct (H2 "alice" e (snd (co_account_remove Mem.collaborators "alice" e)) eq_refl)
    as (Hc & _ & Ho).
  fold remove in Hc, Ho.
  split; [rewrite Ho; reflexivity|]. split.
  - rewrite Hc. reflexivity.
  - apply H3. discriminate.
Defined.
